(** * Gleipnir: the DNest4 nested-sampling wrapper and the model selector

    A shallow embedding of [gleipnir/dnest4.py] and of
    [gleipnir/pysb_utilities/hyp_selector.py].

    Numbers.  NumPy's float64 is idealised: the perturbation move, which only
    adds, multiplies and wraps, is modelled over the rationals [Q] (so that it
    runs); the estimator, which needs [sqrt] and [exp], is modelled over the
    reals [R]; the value returned by a log-likelihood, where not-a-number
    matters, is an IEEE value ([spec_float]).

    Python objects.  A method that can raise returns a [Py.result]; an
    attribute that [__init__] does not create is an [option] field that is
    [None] until the attribute is assigned; the Python value [None] is
    [PyNone].  The coordinate array handed to [perturb] lives in a store and
    is updated in place. *)

From Stdlib Require Import ZArith QArith Qround Qminmax Reals Lra Lia Lqa.
From Stdlib Require Import Floats.SpecFloat Sorting.Sorted.
From stdpp Require Import base option list gmap strings pretty.

(** ** Python results and exceptions *)

Module Py.

Inductive exn : Type :=
| AttributeError (attr : string)
| IndexError
| TypeError
| ValueError
| KeyError (key : string)
| SamplerError (msg : string).

Inductive result (A : Type) : Type :=
| Return (a : A)
| Raise (e : exn).
Arguments Return {A} a.
Arguments Raise {A} e.

Definition bind {A B} (m : result A) (k : A -> result B) : result B :=
  match m with
  | Return a => k a
  | Raise e => Raise e
  end.

(** [l[i]] for a non-negative index: [IndexError] out of range. *)
Definition index {A} (l : list A) (i : nat) : result A :=
  match l !! i with
  | Some a => Return a
  | None => Raise IndexError
  end.

Definition raises {A} (r : result A) : Prop := exists e : exn, r = Raise e.

(** Reading an attribute that may not have been created yet. *)
Definition getattr {A} (name : string) (slot : option A) : result A :=
  match slot with
  | Some a => Return a
  | None => Raise (AttributeError name)
  end.

End Py.

Export Py.

Declare Scope py_scope.
Delimit Scope py_scope with py.
Notation "'let*' x := m 'in' k" := (Py.bind m (fun x => k))
  (at level 10, x name, m at level 100, k at level 200) : py_scope.

(** ** NumPy floats with their special values *)

Module Np.

(** A float64 with its special values, for results that can be
    not-a-number or infinite; the finite ones are real numbers. *)
Inductive npfloat : Type :=
| NaN
| NegInf
| PosInf
| Num (x : R).

Definition np_neg (a : npfloat) : npfloat :=
  match a with
  | NaN => NaN
  | NegInf => PosInf
  | PosInf => NegInf
  | Num x => Num (- x)
  end.

Definition np_add (a b : npfloat) : npfloat :=
  match a, b with
  | NaN, _ | _, NaN => NaN
  | PosInf, NegInf | NegInf, PosInf => NaN
  | PosInf, _ | _, PosInf => PosInf
  | NegInf, _ | _, NegInf => NegInf
  | Num x, Num y => Num (x + y)
  end.

Definition np_sub (a b : npfloat) : npfloat := np_add a (np_neg b).

(** An infinity times a finite [y]: by the sign of [y], not-a-number for 0. *)
Definition inf_times (positive : bool) (y : R) : npfloat :=
  if Rlt_dec 0 y then (if positive then PosInf else NegInf)
  else if Rlt_dec y 0 then (if positive then NegInf else PosInf)
  else NaN.

Definition np_mul (a b : npfloat) : npfloat :=
  match a, b with
  | NaN, _ | _, NaN => NaN
  | Num x, Num y => Num (x * y)
  | PosInf, Num y | Num y, PosInf => inf_times true y
  | NegInf, Num y | Num y, NegInf => inf_times false y
  | PosInf, PosInf | NegInf, NegInf => PosInf
  | PosInf, NegInf | NegInf, PosInf => NegInf
  end.

(** [np.log(n)] for a count [n]: minus infinity at 0. *)
Definition np_log (n : nat) : npfloat :=
  match n with
  | O => NegInf
  | S _ => Num (ln (INR n))
  end.

(** [np.exp] on float64: above about 709.78 the result overflows to
    infinity, below about -745.13 it underflows to 0.0; in between it is
    the exponential (rounding is not modelled). *)
Definition exp_overflow : R := (709782712893384 / 1000000000000)%R.
Definition exp_underflow : R := (- (7451332191019412 / 10000000000000))%R.

Definition np_exp (x : R) : npfloat :=
  if Rlt_dec exp_overflow x then PosInf
  else if Rlt_dec x exp_underflow then Num 0
  else Num (exp x).

End Np.

Export Np.

(** ** The store of coordinate arrays *)

Module Store.

Definition loc := nat.
Abbreviation heap := (gmap loc (list Q)).

(** A computation on the store: the store it leaves, and its outcome.  An
    exception keeps the writes made before it. *)
Definition St (A : Type) : Type := heap -> heap * result A.

Definition ret {A} (a : A) : St A := fun h => (h, Return a).

Definition bind {A B} (m : St A) (k : A -> St B) : St B :=
  fun h => match m h with
           | (h', Return a) => k a h'
           | (h', Raise e) => (h', Raise e)
           end.

Definition lift {A} (r : result A) : St A := fun h => (h, r).

(** [coords[i]] *)
Definition getitem (r : loc) (i : nat) : St Q :=
  fun h => match h !! r with
           | Some xs => (h, index xs i)
           | None => (h, Raise TypeError)
           end.

(** [coords[i] = v] *)
Definition setitem (r : loc) (i : nat) (v : Q) : St unit :=
  fun h => match h !! r with
           | Some xs =>
               if decide (i < length xs)%nat
               then (<[r := <[i := v]> xs]> h, Return tt)
               else (h, Raise IndexError)
           | None => (h, Raise TypeError)
           end.

(** [touched r i h h']: going from [h] to [h'], nothing but entry [i] of
    the array at [r] was written, and no array was created, dropped or
    resized. *)
Definition touched (r : loc) (i : nat) (h h' : heap) : Prop :=
  (forall l : loc, l <> r -> h' !! l = h !! l) /\
  match h !! r with
  | Some xs =>
      exists xs' : list Q, h' !! r = Some xs' /\ length xs' = length xs /\
        forall j : nat, j <> i -> xs' !! j = xs !! j
  | None => h' !! r = None
  end.

End Store.

Declare Scope st_scope.
Delimit Scope st_scope with st.
Notation "'let*' x := m 'in' k" := (Store.bind m (fun x => k))
  (at level 10, x name, m at level 100, k at level 200) : st_scope.
Notation "'do' m 'then' k" := (Store.bind m (fun _ => k))
  (at level 10, m at level 100, k at level 200) : st_scope.

(** ** [_DNest4Model] *)

Module DNest4Model.
Import Store.

(** Floored remainder, Python's [%] on floats, over the rationals. *)
Definition Qmod (x m : Q) : Q := x - m * inject_Z (Qfloor (x / m)).

(** Modelled from the spec: [dnest4.wrap], a function of the DNest4 Python
    bindings, which are not part of this repository.  The spec describes
    it as modular wrap-around into the interval: a value that leaves at
    one bound comes back in from the other one. *)
Definition wrap (x a b : Q) : Q := Qmod (x - a) (b - a) + a.

Record _DNest4Model : Type := {
  _log_likelihood : list Q -> spec_float;
  _widths : list Q;
  _centers : list Q;
  _n_dim : nat
}.

(** [_DNest4Model.__init__]; the prior sampler [from_prior_func] plays no
    part in the operations below and is left out. *)
Definition __init__ (log_likelihood_func : list Q -> spec_float)
    (widths centers : list Q) : _DNest4Model :=
  {| _log_likelihood := log_likelihood_func;
     _widths := widths;
     _centers := centers;
     _n_dim := length widths |}.

(** [_DNest4Model.log_likelihood] *)
Definition log_likelihood (self : _DNest4Model) (coords : list Q) : spec_float :=
  _log_likelihood self coords.

(** The two draws [perturb] takes from NumPy's generator:
    [np.random.randint(n)], which lies in [0, n), and
    [np.random.uniform(size=1)], which lies in [0, 1). *)
Record draws : Type := { draw_randint : nat; draw_uniform : Q }.

(** [np.random.randint(n)] rejects [n <= 0]. *)
Definition randint (d : draws) (n : nat) : result nat :=
  if decide (n = 0)%nat then Raise ValueError else Return (draw_randint d).

(** [_DNest4Model.perturb] *)
Definition perturb (self : _DNest4Model) (coords : loc) (d : draws) : St Q :=
  (let* idx := lift (randint d (_n_dim self)) in
   let* x := getitem coords idx in
   let* w := lift (index (_widths self) idx) in
   do setitem coords idx (x + w * (draw_uniform d - 0.5))%Q then
   let* cw := lift (index (_widths self) idx) in
   let* cc := lift (index (_centers self) idx) in
   let* y := getitem coords idx in
   do setitem coords idx (wrap y (cc - 0.5 * cw) (cc + 0.5 * cw))%Q then
   ret 0%Q)%st.

(** The width and centre [DNest4NestedSampling.__init__] estimates for
    one parameter from the draws [rv] of its prior: [rv.max() - rv.min()]
    and [(rv.max() + rv.min()) / 2.0]. *)
Definition Qmin_list (x : Q) (rv : list Q) : Q := fold_right Qmin x rv.
Definition Qmax_list (x : Q) (rv : list Q) : Q := fold_right Qmax x rv.

Definition width_center (rv : list Q) : result (Q * Q) :=
  match rv with
  | [] => Raise ValueError
  | x :: rest =>
      let low := Qmin_list x rest in
      let high := Qmax_list x rest in
      Return (high - low, (high + low) / 2)%Q
  end.

End DNest4Model.

(** ** [DNest4NestedSampling] *)

Module DNest4.

(** A Python value held by an attribute: [None] or a float. *)
Inductive pyval : Type :=
| PyNone
| PyFloat (x : R).

Record SampledParameter : Type := { name : string }.

(** What the DNest4 sampler, an external program, hands back when a run
    goes through: [postprocess(resample=1)] with its ['log_Z'] and ['H'],
    and [backend.posterior_samples], one row per sample. *)
Record SamplerOutput : Type := {
  log_Z : R;
  H : R;
  posterior_samples : list (list R)
}.

(** A run of the external sampler either goes through or raises. *)
Inductive outcome : Type :=
| Completes (o : SamplerOutput)
| Fails (e : exn).

Abbreviation marginals := (gmap string (list R * list R)).

Record DNest4NestedSampling : Type := {
  sampled_parameters : list SampledParameter;
  population_size : Z;
  _n_dims : nat;
  _log_evidence : pyval;
  _information : pyval;
  _post_eval : bool;
  (* attributes that exist only once they have been assigned *)
  _logZ_err : option R;
  _evidence_error : option R;
  _evidence : option R;
  _samples : option (list (list R));
  _posteriors : option marginals
}.

(** [DNest4NestedSampling.__init__]: [population_size=None] becomes
    [25*self._n_dims]; [_log_evidence] and [_information] start as [None];
    [_logZ_err], [_evidence_error], [_evidence], [_samples] and
    [_posteriors] are not created.  (The widths and centres it estimates
    go to the [_DNest4Model], see [DNest4Model.width_center].) *)
Definition __init__ (params : list SampledParameter) (pop : option Z)
  : DNest4NestedSampling :=
  let n_dims := length params in
  {| sampled_parameters := params;
     population_size :=
       match pop with Some p => p | None => (25 * Z.of_nat n_dims)%Z end;
     _n_dims := n_dims;
     _log_evidence := PyNone;
     _information := PyNone;
     _post_eval := false;
     _logZ_err := None;
     _evidence_error := None;
     _evidence := None;
     _samples := None;
     _posteriors := None |}.

(** [DNest4NestedSampling.run]: when the sampler raises, the exception
    leaves [run] before any result is stored. *)
Definition run (self : DNest4NestedSampling) (oc : outcome)
  : DNest4NestedSampling * result (pyval * pyval) :=
  match oc with
  | Fails e => (self, Raise e)
  | Completes stats =>
      let log_evidence := log_Z stats in
      let information := H stats in
      let logZ_err := sqrt (information / IZR (population_size self)) in
      let ev_err := exp logZ_err in
      ({| sampled_parameters := sampled_parameters self;
          population_size := population_size self;
          _n_dims := _n_dims self;
          _log_evidence := PyFloat log_evidence;
          _information := PyFloat information;
          _post_eval := _post_eval self;
          _logZ_err := Some logZ_err;
          _evidence_error := Some ev_err;
          _evidence := Some (exp log_evidence);
          _samples := Some (posterior_samples stats);
          _posteriors := _posteriors self |},
       Return (PyFloat log_evidence, PyFloat logZ_err))
  end.

(** *** The read-only properties *)

Definition evidence (self : DNest4NestedSampling) : result pyval :=
  (let* x := getattr "_evidence" (_evidence self) in Return (PyFloat x))%py.

Definition evidence_error (self : DNest4NestedSampling) : result pyval :=
  (let* x := getattr "_evidence_error" (_evidence_error self) in
   Return (PyFloat x))%py.

Definition log_evidence (self : DNest4NestedSampling) : result pyval :=
  Return (_log_evidence self).

Definition log_evidence_error (self : DNest4NestedSampling) : result pyval :=
  (let* x := getattr "_logZ_err" (_logZ_err self) in Return (PyFloat x))%py.

Definition information (self : DNest4NestedSampling) : result pyval :=
  Return (_information self).

(** The five derived fields, to speak of them together. *)
Inductive field : Type :=
| Evidence | EvidenceError | LogEvidence | LogEvidenceError | Information.

Definition getter (f : field) (self : DNest4NestedSampling) : result pyval :=
  match f with
  | Evidence => evidence self
  | EvidenceError => evidence_error self
  | LogEvidence => log_evidence self
  | LogEvidenceError => log_evidence_error self
  | Information => information self
  end.

(** *** The setters: [warnings.warn(...)] and nothing else.  A setter
    returns the object it leaves and the warnings it issued. *)

Definition evidence_setter (self : DNest4NestedSampling) (value : pyval)
  : DNest4NestedSampling * list string :=
  (self, ["evidence is not settable"]).

Definition evidence_error_setter (self : DNest4NestedSampling) (value : pyval)
  : DNest4NestedSampling * list string :=
  (self, ["evidence_error is not settable"]).

Definition log_evidence_setter (self : DNest4NestedSampling) (value : pyval)
  : DNest4NestedSampling * list string :=
  (self, ["log_evidence is not settable"]).

Definition log_evidence_error_setter (self : DNest4NestedSampling) (value : pyval)
  : DNest4NestedSampling * list string :=
  (self, ["log_evidence_error is not settable"]).

Definition information_setter (self : DNest4NestedSampling) (value : pyval)
  : DNest4NestedSampling * list string :=
  (self, ["information is not settable"]).

Definition setter (f : field) (self : DNest4NestedSampling) (value : pyval)
  : DNest4NestedSampling * list string :=
  match f with
  | Evidence => evidence_setter self value
  | EvidenceError => evidence_error_setter self value
  | LogEvidence => log_evidence_setter self value
  | LogEvidenceError => log_evidence_error_setter self value
  | Information => information_setter self value
  end.

(** *** [posteriors] *)

(** The integer cube root of a count [n]: the largest [k] with
    [k^3 <= n]. *)
Fixpoint icbrt (n : nat) : nat :=
  match n with
  | O => O
  | S m => let k := icbrt m in if (S k ^ 3 <=? S m)%nat then S k else k
  end.

(** [samples.shape[1]]: an array without rows has no second axis. *)
Definition shape1 (samples : list (list R)) : result nat :=
  match samples with
  | [] => Raise IndexError
  | row :: _ => Return (length row)
  end.

(** [samples[:,ii]] *)
Definition column (ii : nat) (samples : list (list R)) : list R :=
  map (fun row => nth ii row 0%R) samples.

(** [(edge[:-1] + edge[1:])/2.] *)
Definition centers (edge : list R) : list R :=
  zip_with (fun a b => ((a + b) / 2)%R) (removelast edge) (tail edge).

Section Posteriors.

(** [np.histogram(column, density=True, bins=nbins)], NumPy's: the
    densities and the bin edges, or an exception. *)
Variable np_histogram : list R -> nat -> result (list R * list R).

(** [int(np.cbrt(n))] for a count [n]: NumPy's float64 cube root, cut to
    an integer.  It is the integer cube root [icbrt n] wherever the float
    is accurate enough; at a perfect cube the float can fall just below
    the root, and the integer is then one less. *)
Variable np_cbrt_int : nat -> nat.

(** [nbins = 2 * int(np.cbrt(len(samples)))] *)
Definition nbins (samples : list (list R)) : nat :=
  (2 * np_cbrt_int (length samples))%nat.

(** The loop [for ii in range(nd)], with the dictionary filled so far;
    an exception leaves the entries already stored. *)
Fixpoint fill (params : list SampledParameter) (samples : list (list R))
    (bins : nat) (iis : list nat) (acc : marginals) : marginals * result unit :=
  match iis with
  | [] => (acc, Return tt)
  | ii :: rest =>
      match np_histogram (column ii samples) bins with
      | Raise e => (acc, Raise e)
      | Return (marginal, edge) =>
          let center := centers edge in
          match index params ii with
          | Raise e => (acc, Raise e)
          | Return p => fill params samples bins rest (<[name p := (marginal, center)]> acc)
          end
      end
  end.

Definition set_posteriors (self : DNest4NestedSampling) (post_eval : bool)
    (d : marginals) : DNest4NestedSampling :=
  {| sampled_parameters := sampled_parameters self;
     population_size := population_size self;
     _n_dims := _n_dims self;
     _log_evidence := _log_evidence self;
     _information := _information self;
     _post_eval := post_eval;
     _logZ_err := _logZ_err self;
     _evidence_error := _evidence_error self;
     _evidence := _evidence self;
     _samples := _samples self;
     _posteriors := Some d |}.

(** [DNest4NestedSampling.posteriors] *)
Definition posteriors (self : DNest4NestedSampling)
  : DNest4NestedSampling * result marginals :=
  if _post_eval self then (self, getattr "_posteriors" (_posteriors self))
  else
    match getattr "_samples" (_samples self) with
    | Raise e => (self, Raise e)
    | Return samples =>
        let bins := nbins samples in
        match shape1 samples with
        | Raise e => (self, Raise e)
        | Return nd =>
            match fill (sampled_parameters self) samples bins (seq 0 nd) ∅ with
            | (d, Raise e) => (set_posteriors self false d, Raise e)
            | (d, Return _) => (set_posteriors self true d, Return d)
            end
        end
    end.

End Posteriors.

(** *** States and wordings used by the statements below *)

(** The states an object can be in while no run has finished: as built,
    after a run that raised, after an attempted assignment to a derived
    field, after a call of [posteriors]. *)
Inductive unfinished : DNest4NestedSampling -> Prop :=
| unfinished_init (params : list SampledParameter) (pop : option Z) :
    unfinished (__init__ params pop)
| unfinished_failed (self : DNest4NestedSampling) (e : exn) :
    unfinished self -> unfinished (run self (Fails e)).1
| unfinished_set (self : DNest4NestedSampling) (f : field) (value : pyval) :
    unfinished self -> unfinished (setter f self value).1
| unfinished_posteriors (np_histogram : list R -> nat -> result (list R * list R))
    (np_cbrt_int : nat -> nat) (self : DNest4NestedSampling) :
    unfinished self -> unfinished (posteriors np_histogram np_cbrt_int self).1.

(** [k] is [2 * cbrt(n)] rounded down: [k <= 2 * cbrt(n) < k + 1], that
    is [k^3 <= 8 * n < (k + 1)^3]. *)
Definition floor_of_twice_cbrt (n k : nat) : Prop :=
  (k ^ 3 <= 8 * n < S k ^ 3)%nat.

End DNest4.

(** ** [HypSelector] *)

Module HypSel.
Import DNest4.

(** A row of the selection table. *)
Record row : Type := {
  model : string;
  row_log_evidence : pyval;
  row_log_evidence_error : pyval
}.

Record HypSelector : Type := {
  _model_files : list string;
  nested_samplers : option (list DNest4NestedSampling);
  selection : option (list row)
}.

(** ["model_{}".format(i)] *)
Definition model_name (i : nat) : string := "model_" +:+ pretty i.

(** [HypSelector.number_of_models] *)
Definition number_of_models (self : HypSelector) : nat := length (_model_files self).

(** The loop [for i in range(len(self.nested_samplers)):
    self.nested_samplers[i].run()], from index [i] on.  [env i] is what the
    external sampler of model [i] does.  The samplers are objects updated
    in place: those already run keep their results when a later one
    raises, and the exception leaves the loop. *)
Fixpoint run_each (env : nat -> outcome) (i : nat) (nss : list DNest4NestedSampling)
  : list DNest4NestedSampling * result unit :=
  match nss with
  | [] => ([], Return tt)
  | ns :: rest =>
      match run ns (env i) with
      | (ns', Raise e) => (ns' :: rest, Raise e)
      | (ns', Return _) =>
          let '(rest', r) := run_each env (S i) rest in (ns' :: rest', r)
      end
  end.

(** The loop that builds [frame], from index [i] on. *)
Fixpoint build_frame (i : nat) (nss : list DNest4NestedSampling) : result (list row) :=
  match nss with
  | [] => Return []
  | ns :: rest =>
      (let* le := log_evidence ns in
       let* lee := log_evidence_error ns in
       let* rows := build_frame (S i) rest in
       Return ({| model := model_name i;
                  row_log_evidence := le;
                  row_log_evidence_error := lee |} :: rows))%py
  end.

(** The order of [sort_values(by=['log_evidence'], ascending=False)]:
    larger first, missing values last. *)
Definition before (a b : row) : bool :=
  match row_log_evidence a, row_log_evidence b with
  | PyFloat x, PyFloat y => if Rle_dec y x then true else false
  | PyFloat _, PyNone => true
  | PyNone, PyFloat _ => false
  | PyNone, PyNone => true
  end.

Fixpoint insert_row (r : row) (rows : list row) : list row :=
  match rows with
  | [] => [r]
  | r' :: rest => if before r r' then r :: rows else r' :: insert_row r rest
  end.

Definition sort_values (rows : list row) : list row := foldr insert_row [] rows.

Definition set_samplers (self : HypSelector) (nss : list DNest4NestedSampling)
  : HypSelector :=
  {| _model_files := _model_files self;
     nested_samplers := Some nss;
     selection := selection self |}.

Definition set_selection (self : HypSelector) (rows : list row) : HypSelector :=
  {| _model_files := _model_files self;
     nested_samplers := nested_samplers self;
     selection := Some rows |}.

(** What a call leaves behind and gives back. *)
Record call (A : Type) : Type := {
  after : HypSelector;
  warned : list string;
  value : result A
}.
Arguments after {A} c.
Arguments warned {A} c.
Arguments value {A} c.

(** [HypSelector.run_nested_sampling]; the value is [None] when it only
    warns, the sorted table otherwise.  A frame without rows has no column
    to sort by. *)
Definition run_nested_sampling (self : HypSelector) (env : nat -> outcome)
  : call (option (list row)) :=
  match nested_samplers self with
  | None =>
      {| after := self;
         warned := ["Unable to run. Must call the 'gen_nested_samplers' function first!"];
         value := Return None |}
  | Some nss =>
      match run_each env 0 nss with
      | (nss', Raise e) =>
          {| after := set_samplers self nss'; warned := []; value := Raise e |}
      | (nss', Return _) =>
          let self' := set_samplers self nss' in
          match build_frame 0 nss' with
          | Raise e => {| after := self'; warned := []; value := Raise e |}
          | Return [] => {| after := self'; warned := []; value := Raise (KeyError "log_evidence") |}
          | Return frame =>
              let selection := sort_values frame in
              {| after := set_selection self' selection;
                 warned := [];
                 value := Return (Some selection) |}
          end
      end
  end.

(** *** [bayes_factors] *)

Abbreviation matrix := (list (list npfloat)).

(** [np.ones((n, n))] *)
Definition ones (n : nat) : matrix := replicate n (replicate n (Num 1)).

(** [m[j, i] = v] *)
Definition setitem2 (m : matrix) (j i : nat) (v : npfloat) : result matrix :=
  match m !! j with
  | Some r =>
      if decide (i < length r)%nat then Return (<[j := <[i := v]> r]> m)
      else Raise IndexError
  | None => Raise IndexError
  end.

(** [np.exp(loge_i - loge_j)]: [None] has no subtraction. *)
Definition exp_diff (loge_i loge_j : pyval) : result npfloat :=
  match loge_i, loge_j with
  | PyFloat a, PyFloat b => Return (np_exp (a - b))
  | _, _ => Raise TypeError
  end.

(** [for j, nsj in enumerate(self.nested_samplers)], from index [j] on. *)
Fixpoint inner (i : nat) (loge_i : pyval) (j : nat) (nss : list DNest4NestedSampling)
    (m : matrix) : result matrix :=
  match nss with
  | [] => Return m
  | nsj :: rest =>
      (let* loge_j := log_evidence nsj in
       let* m' :=
         (if decide (i <> j) then
            let* bf := exp_diff loge_i loge_j in setitem2 m j i bf
          else Return m) in
       inner i loge_i (S j) rest m')%py
  end.

(** [for i, nsi in enumerate(self.nested_samplers)], from index [i] on. *)
Fixpoint outer (all : list DNest4NestedSampling) (i : nat)
    (nss : list DNest4NestedSampling) (m : matrix) : result matrix :=
  match nss with
  | [] => Return m
  | nsi :: rest =>
      (let* loge_i := log_evidence nsi in
       let* m' := inner i loge_i 0 all m in
       outer all (S i) rest m')%py
  end.

(** The table returned: the labels of rows and columns, and the entries. *)
Record frame : Type := { labels : list string; entries : matrix }.

(** [HypSelector.bayes_factors] *)
Definition bayes_factors (self : HypSelector) : result frame :=
  let n_models := number_of_models self in
  let mod_list := map model_name (seq 0 n_models) in
  match nested_samplers self with
  | None => Raise TypeError
  | Some nss =>
      (let* m := outer nss 0 nss (ones n_models) in
       Return {| labels := mod_list; entries := m |})%py
  end.

(** *** Wordings used by the statements below *)

(** The log-evidence of model [i], once its run has completed. *)
Definition logZ (self : HypSelector) (i : nat) : option R :=
  match nested_samplers self with
  | Some nss =>
      match nss !! i with
      | Some ns => match _log_evidence ns with PyFloat x => Some x | PyNone => None end
      | None => None
      end
  | None => None
  end.

(** The entry in row [i] and column [j] of a table. *)
Definition entry (fr : frame) (i j : nat) : option npfloat :=
  match entries fr !! i with
  | Some r => r !! j
  | None => None
  end.

(** Every sampler has completed a run: its log-evidence is a number. *)
Definition has_log_evidence (ns : DNest4NestedSampling) : bool :=
  match _log_evidence ns with PyFloat _ => true | PyNone => false end.

Definition completed (nss : list DNest4NestedSampling) : Prop :=
  forallb has_log_evidence nss = true.

(** A failing run is skipped: the call still returns a table, with a row
    for every model whose run completes. *)
Definition skips_and_continues (self : HypSelector) (env : nat -> outcome) : Prop :=
  exists table : list row,
    value (run_nested_sampling self env) = Return (Some table) /\
    forall (i : nat) (o : SamplerOutput),
      (i < number_of_models self)%nat -> env i = Completes o ->
      exists rw : row, rw ∈ table /\ model rw = model_name i.

(** Entry (i, j) is the evidence of model [i] over that of model [j]. *)
Definition row_over_column (self : HypSelector) : Prop :=
  forall (fr : frame) (i j : nat) (zi zj : R),
    bayes_factors self = Return fr ->
    logZ self i = Some zi -> logZ self j = Some zj ->
    entry fr i j = Some (np_exp (zi - zj)).

(** For all models [i] and [j], [BF[i,j] * BF[j,i]] is 1. *)
Definition reciprocal_table (self : HypSelector) : Prop :=
  forall (fr : frame) (i j : nat),
    bayes_factors self = Return fr ->
    (i < number_of_models self)%nat -> (j < number_of_models self)%nat ->
    exists a b : npfloat,
      entry fr i j = Some a /\ entry fr j i = Some b /\ np_mul a b = Num 1.

(** [m] is an [n] by [n] array whose entry in row [r], column [c] is
    [f r c]. *)
Definition has_entries (n : nat) (f : nat -> nat -> npfloat) (m : matrix) : Prop :=
  length m = n /\
  forall r : nat, (r < n)%nat ->
    exists row : list npfloat, m !! r = Some row /\ length row = n /\
      forall c : nat, (c < n)%nat -> row !! c = Some (f r c).

(** The array while the loops run: columns before [i] are written, and
    of column [i] the rows before [j]; the diagonal is never written. *)
Definition entry_at (l : nat -> R) (i j r c : nat) : npfloat :=
  if decide (((c < i)%nat \/ (c = i /\ (r < j)%nat)) /\ c <> r)
  then np_exp (l c - l r) else Num 1.

(** The log-evidence read off sampler [k], 0 where there is none. *)
Definition loge (nss : list DNest4NestedSampling) (k : nat) : R :=
  match nss !! k with
  | Some ns => match _log_evidence ns with PyFloat x => x | PyNone => 0%R end
  | None => 0%R
  end.

(** Two models whose runs gave log-evidences 1 and 0, and a pair of
    models of which the first one's sampler raises. *)
Definition ran (z : R) : DNest4NestedSampling :=
  (run (__init__ [ {| name := "k" |} ] None)
     (Completes {| log_Z := z; H := 2; posterior_samples := [[0%R]] |})).1.

Definition two_ran : HypSelector :=
  {| _model_files := ["hb_models/model_0.py"; "hb_models/model_1.py"];
     nested_samplers := Some [ran 1; ran 0];
     selection := None |}.

(** Two models whose runs gave log-evidences 1000 and 0. *)
Definition far_apart : HypSelector :=
  {| _model_files := ["hb_models/model_0.py"; "hb_models/model_1.py"];
     nested_samplers := Some [ran 1000; ran 0];
     selection := None |}.

Definition two_fresh : HypSelector :=
  {| _model_files := ["hb_models/model_0.py"; "hb_models/model_1.py"];
     nested_samplers :=
       Some [__init__ [ {| name := "k" |} ] None; __init__ [ {| name := "k" |} ] None];
     selection := None |}.

Definition first_fails (i : nat) : outcome :=
  match i with
  | O => Fails (SamplerError "solver did not converge")
  | S _ => Completes {| log_Z := 1; H := 2; posterior_samples := [[0%R]] |}
  end.

Definition both_complete (i : nat) : outcome :=
  Completes {| log_Z := INR i; H := 2; posterior_samples := [[0%R]] |}.

End HypSel.

(** ** The model [DNest4NestedSampling.__init__] builds, and repeated moves *)

Module Priors.
Import Store DNest4Model.

(** The loop [for sampled_parameter in sampled_parameters] of
    [DNest4NestedSampling.__init__]: [rvs] holds, for each parameter in
    turn, the draws [sampled_parameter.rvs(10000)] returned; the widths and
    centres are collected in the order of the parameters. *)
Fixpoint widths_centers (rvs : list (list Q)) : result (list Q * list Q) :=
  match rvs with
  | [] => Return ([], [])
  | rv :: rest =>
      (let* wc := width_center rv in
       let* more := widths_centers rest in
       Return (wc.1 :: more.1, wc.2 :: more.2))%py
  end.

(** [self._dnest4_model = _DNest4Model(loglikelihood, self._from_prior,
    widths, centers)] *)
Definition make_model (loglikelihood : list Q -> spec_float) (rvs : list (list Q))
  : result _DNest4Model :=
  (let* wc := widths_centers rvs in
   Return (__init__ loglikelihood wc.1 wc.2))%py.

(** Every coordinate lies in the interval of its dimension. *)
Definition in_bounds (self : _DNest4Model) (xs : list Q) : Prop :=
  forall (i : nat) (x w c : Q),
    xs !! i = Some x -> _widths self !! i = Some w -> _centers self !! i = Some c ->
    (c - w / 2 <= x /\ x <= c + w / 2)%Q.

(** One call of [perturb] after another on the same array, as the sampler
    makes them, one per pair of draws. *)
Fixpoint perturb_each (self : _DNest4Model) (coords : loc) (ds : list draws) : St unit :=
  match ds with
  | [] => ret tt
  | d :: rest => (do perturb self coords d then perturb_each self coords rest)%st
  end.

End Priors.

(** ** The information criteria of [DNest4NestedSampling] *)

Module Criteria.
Import DNest4.

(** The ['log_likelihood'] entry of [DataFrame.max()]: the largest value
    of the column, not-a-number for a column without rows. *)
Definition column_max (col : list R) : npfloat :=
  match col with
  | [] => NaN
  | x :: rest => Num (fold_right Rmax x rest)
  end.

(** The sampler with the attributes the criteria read: the log-likelihood
    function, and what [run] keeps of the last live sample, namely the
    coordinates (one row per particle), the weights and the
    ['log_likelihood'] column of the sample information. *)
Record Sampler : Type := {
  core : DNest4NestedSampling;
  loglikelihood : list R -> npfloat;
  _last_live_sample : option (list (list R));
  _last_live_sample_weights : option (list R);
  _last_live_sample_info : option (list R)
}.

(** [backend.samples[-1]], [backend.weights[-1]] and
    [backend.sample_info[-1]] of the external sampler after a run. *)
Record Backend : Type := {
  samples_last : list (list R);
  weights_last : list R;
  sample_info_last : list R
}.

(** The object as [__init__] leaves it. *)
Definition new (params : list SampledParameter) (pop : option Z)
    (loglikelihood : list R -> npfloat) : Sampler :=
  {| core := __init__ params pop;
     loglikelihood := loglikelihood;
     _last_live_sample := None;
     _last_live_sample_weights := None;
     _last_live_sample_info := None |}.

(** [run], with the last live sample it stores at its end. *)
Definition run_sampler (self : Sampler) (oc : outcome) (backend : Backend)
  : Sampler * result (pyval * pyval) :=
  match run (core self) oc with
  | (c, Return r) =>
      ({| core := c;
          loglikelihood := loglikelihood self;
          _last_live_sample := Some (samples_last backend);
          _last_live_sample_weights := Some (weights_last backend);
          _last_live_sample_info := Some (sample_info_last backend) |},
       Return r)
  | (c, Raise e) =>
      ({| core := c;
          loglikelihood := loglikelihood self;
          _last_live_sample := _last_live_sample self;
          _last_live_sample_weights := _last_live_sample_weights self;
          _last_live_sample_info := _last_live_sample_info self |},
       Raise e)
  end.

(** [DNest4NestedSampling.akaike_ic]: [2.*k - 2.*ml] *)
Definition akaike_ic (self : Sampler) : result npfloat :=
  (let* info := getattr "_last_live_sample_info" (_last_live_sample_info self) in
   let ml := column_max info in
   let k := length (sampled_parameters (core self)) in
   Return (np_sub (Num (2 * INR k)) (np_mul (Num 2) ml)))%py.

(** [DNest4NestedSampling.bayesian_ic]: [np.log(n_data)*k - 2.*ml] *)
Definition bayesian_ic (self : Sampler) (n_data : nat) : result npfloat :=
  (let* info := getattr "_last_live_sample_info" (_last_live_sample_info self) in
   let ml := column_max info in
   let k := length (sampled_parameters (core self)) in
   Return (np_sub (np_mul (np_log n_data) (Num (INR k))) (np_mul (Num 2) ml)))%py.

(** What a call of [deviance_ic] can raise besides the exceptions above:
    [np.average] raises [ZeroDivisionError] for weights that sum to zero. *)
Inductive raised : Type :=
| Exn (e : exn)
| ZeroDivisionError.

Inductive answer (A : Type) : Type :=
| Gives (a : A)
| Raises (r : raised).
Arguments Gives {A} a.
Arguments Raises {A} r.

Definition total (w : list R) : R := fold_right Rplus 0%R w.

(** [np.average(a, weights=w)] for one-dimensional [a]: the shapes must
    agree and the weights must not sum to zero. *)
Definition average (a w : list R) : answer R :=
  if decide (length a = length w) then
    if Req_dec_T (total w) 0 then Raises ZeroDivisionError
    else Gives (total (zip_with Rmult a w) / total w)%R
  else Raises (Exn TypeError).

(** [np.average(params, axis=0, weights=w)] for [params] with one row per
    particle: one weight per row, a weighted mean per column. *)
Definition average_rows (params : list (list R)) (w : list R) : answer (list R) :=
  if decide (length params = length w) then
    if Req_dec_T (total w) 0 then Raises ZeroDivisionError
    else
      let nd := match params with [] => O | row :: _ => length row end in
      Gives (map (fun j => (total (zip_with Rmult (column j params) w) / total w)%R)
                 (seq 0 nd))
  else Raises (Exn ValueError).

Definition attr {A} (name : string) (slot : option A) : answer A :=
  match slot with
  | Some a => Gives a
  | None => Raises (Exn (AttributeError name))
  end.

(** [DNest4NestedSampling.deviance_ic] *)
Definition deviance_ic (self : Sampler) : answer npfloat :=
  match attr "_last_live_sample" (_last_live_sample self) with
  | Raises r => Raises r
  | Gives params =>
  match attr "_last_live_sample_info" (_last_live_sample_info self) with
  | Raises r => Raises r
  | Gives log_likelihoods =>
  match attr "_last_live_sample_weights" (_last_live_sample_weights self) with
  | Raises r => Raises r
  | Gives weights =>
      let D_of_theta := map (fun l => (-2 * l)%R) log_likelihoods in
      match average D_of_theta weights with
      | Raises r => Raises r
      | Gives D_bar =>
          match average_rows params weights with
          | Raises r => Raises r
          | Gives theta_bar =>
              let D_of_theta_bar := np_mul (Num (-2)) (loglikelihood self theta_bar) in
              let p_D := np_sub (Num D_bar) D_of_theta_bar in
              Gives (np_add p_D (Num D_bar))
          end
      end
  end end end.

End Criteria.

(** ** The information criteria of [HypSelector] *)

Module SelectorCriteria.
Import DNest4 HypSel Criteria.

(** A row of a criterion table. *)
Record ic_row : Type := { ic_model : string; ic_value : npfloat }.

(** The selector with the attribute [_n_data] reads:
    [_nested_sample_its], of which only [observable_data] matters here, a
    dictionary from the name of an observable to its data array (the first
    item of the tuple). *)
Record HypSelectorIC : Type := {
  selector : HypSelector;
  _nested_sample_its : option (list (gmap string (list R)))
}.

(** [HypSelector._n_data] *)
Definition _n_data (self : HypSelectorIC) : result nat :=
  match _nested_sample_its self with
  | None => Raise TypeError
  | Some its =>
      (let* obs_dat := index its 0 in
       Return (map_fold (fun _ data n_dat => n_dat + length data)%nat 0%nat obs_dat))%py
  end.

(** The order of [sort_values(by=[...], ascending=True)]: smaller first,
    not-a-number last. *)
Definition np_before (a b : npfloat) : bool :=
  match a, b with
  | _, NaN => true
  | NaN, _ => false
  | NegInf, _ => true
  | _, NegInf => false
  | _, PosInf => true
  | PosInf, _ => false
  | Num x, Num y => if Rle_dec x y then true else false
  end.

Fixpoint insert_ic (r : ic_row) (rows : list ic_row) : list ic_row :=
  match rows with
  | [] => [r]
  | r' :: rest =>
      if np_before (ic_value r) (ic_value r') then r :: rows else r' :: insert_ic r rest
  end.

Definition sort_ascending (rows : list ic_row) : list ic_row := foldr insert_ic [] rows.

Section Tables.

(** The criterion method of a sampler object, whichever class it is of. *)
Variable criterion : DNest4NestedSampling -> result npfloat.

(** The loop that builds [frame], from index [i] on. *)
Fixpoint build_ic_frame (i : nat) (nss : list DNest4NestedSampling)
  : result (list ic_row) :=
  match nss with
  | [] => Return []
  | ns :: rest =>
      (let* v := criterion ns in
       let* rows := build_ic_frame (S i) rest in
       Return ({| ic_model := model_name i; ic_value := v |} :: rows))%py
  end.

(** The body shared by [akaike_ic] and [bayesian_ic]; a frame without rows
    has no column to sort by. *)
Definition ic_table (column : string) (self : HypSelector) : result (list ic_row) :=
  match nested_samplers self with
  | None => Raise TypeError
  | Some nss =>
      (let* frame := build_ic_frame 0 nss in
       match frame with
       | [] => Raise (KeyError column)
       | _ => Return (sort_ascending frame)
       end)%py
  end.

End Tables.

(** [HypSelector.akaike_ic], given the samplers' [akaike_ic] method. *)
Definition akaike_ic (ns_akaike_ic : DNest4NestedSampling -> result npfloat)
    (self : HypSelectorIC) : result (list ic_row) :=
  ic_table ns_akaike_ic "AIC" (selector self).

(** [HypSelector.bayesian_ic], given the samplers' [bayesian_ic] method. *)
Definition bayesian_ic (ns_bayesian_ic : DNest4NestedSampling -> nat -> result npfloat)
    (self : HypSelectorIC) : result (list ic_row) :=
  (let* n_data := _n_data self in
   ic_table (fun ns => ns_bayesian_ic ns n_data) "BIC" (selector self))%py.

(** Two models that have run, with the data of one observable, and a
    criterion read off the sampler. *)
Definition two_ran_ic : HypSelectorIC :=
  {| selector := two_ran;
     _nested_sample_its := Some [ {[ "obs" := [1%R; 2%R; 3%R] ]}; ∅ ] |}.

Definition by_log_evidence (ns : DNest4NestedSampling) : result npfloat :=
  match _log_evidence ns with
  | PyFloat x => Return (Num x)
  | PyNone => Raise (AttributeError "_last_live_sample_info")
  end.

End SelectorCriteria.

(** ** The model files *)

Module Files.
Import HypSel.

(** The files on disk: path to contents. *)
Abbreviation files := (gmap string string).

(** [with open(mf,'a') as mfo: mfo.write(line)]: the line goes to the end
    of the file, which is created when it does not exist.  The directory
    is taken to exist and to be writable, as for the files [__init__]
    found with [glob]. *)
Definition append_line (line : string) (fs : files) (mf : string) : files :=
  <[mf := default "" (fs !! mf) +:+ line]> fs.

(** [HypSelector.append_to_models] *)
Definition append_to_models (self : HypSelector) (line : string) (fs : files) : files :=
  foldl (append_line line) fs (_model_files self).

End Files.

(** ** Perturbation: proofs *)

Module PerturbFacts.
Import Store DNest4Model.

Lemma Qmod_bounds (x m : Q) : (0 < m)%Q -> (0 <= Qmod x m /\ Qmod x m < m)%Q.
Proof.
  intros Hm. unfold Qmod.
  pose proof (Qfloor_le (x / m)) as Hlo.
  pose proof (Qlt_floor (x / m)) as Hhi.
  rewrite inject_Z_plus in Hhi.
  set (k := inject_Z (Qfloor (x / m))) in *.
  assert (Hx : (m * (x / m) == x)%Q) by (apply Qmult_div_r; lra).
  assert (H1 : (m * k <= m * (x / m))%Q) by (apply Qmult_le_l; assumption).
  assert (H2 : (m * (x / m) < m * (k + 1))%Q) by (apply Qmult_lt_l; assumption).
  rewrite Hx in H1, H2. split; lra.
Qed.

Lemma wrap_bounds (x a b : Q) : (a < b)%Q -> (a <= wrap x a b /\ wrap x a b < b)%Q.
Proof.
  intros Hab. unfold wrap.
  destruct (Qmod_bounds (x - a) (b - a)) as [H1 H2]; [lra|].
  split; lra.
Qed.

(** Wrapping moves a value by a whole number of interval lengths. *)
Lemma wrap_modular (x a b : Q) :
  exists k : Z, (wrap x a b == x - inject_Z k * (b - a))%Q.
Proof.
  exists (Qfloor ((x - a) / (b - a))). unfold wrap, Qmod. ring.
Qed.

(** A value already inside the interval is left where it is: wrapping is
    not clamping, and it is the identity on [a, b). *)
Lemma wrap_inside (x a b : Q) : (a <= x)%Q -> (x < b)%Q -> (wrap x a b == x)%Q.
Proof.
  intros Hax Hxb. unfold wrap, Qmod.
  assert (Hm : (0 < b - a)%Q) by lra.
  assert (Hq0 : (0 <= (x - a) / (b - a))%Q).
  { apply Qle_shift_div_l; [assumption | lra]. }
  assert (Hq1 : ((x - a) / (b - a) < 1)%Q).
  { apply Qlt_shift_div_r; [assumption | lra]. }
  assert (Hfl : Qfloor ((x - a) / (b - a)) = 0%Z).
  { pose proof (Qfloor_le ((x - a) / (b - a))) as Hlo.
    pose proof (Qlt_floor ((x - a) / (b - a))) as Hhi.
    assert (Hlo' : (inject_Z (Qfloor ((x - a) / (b - a))) < inject_Z 1)%Q).
    { eapply Qle_lt_trans; [exact Hlo | exact Hq1]. }
    assert (Hhi' : (inject_Z 0 < inject_Z (Qfloor ((x - a) / (b - a)) + 1))%Q).
    { eapply Qle_lt_trans; [exact Hq0 | exact Hhi]. }
    rewrite <- Zlt_Qlt in Hlo', Hhi'. lia. }
  rewrite Hfl. change (inject_Z 0) with 0%Q. ring.
Qed.

(** Wrapping is not clamping: a value past the upper bound comes back in
    from the lower one. *)
Example wrap_reenters : (wrap 3.5 (-1) 3 == -0.5)%Q.
Proof. reflexivity. Qed.

(** *** The width estimated from the draws of a prior *)

Lemma Qmin_max_list (x : Q) (rv : list Q) :
  (Qmin_list x rv <= x /\ x <= Qmax_list x rv)%Q.
Proof.
  induction rv as [|y rv [IHlo IHhi]]; simpl.
  - split; apply Qle_refl.
  - split.
    + eapply Qle_trans; [apply Q.le_min_r | exact IHlo].
    + eapply Qle_trans; [exact IHhi | apply Q.le_max_r].
Qed.

(** The estimated width is never negative; it is 0 for a prior whose
    draws all coincide; the bounds below are stated for a positive width. *)
Lemma width_center_nonneg (rv : list Q) (w c : Q) :
  width_center rv = Return (w, c) -> (0 <= w)%Q.
Proof.
  destruct rv as [|x rest]; simpl; [discriminate|].
  intros [= <- _]. destruct (Qmin_max_list x rest) as [Hlo Hhi]. lra.
Qed.

(** *** Reads and writes of the store *)

Lemma getitem_hit (h : heap) (r : loc) (xs : list Q) (i : nat) (x : Q) :
  h !! r = Some xs -> xs !! i = Some x -> getitem r i h = (h, Return x).
Proof. intros Hr Hi. unfold getitem, index. rewrite Hr, Hi. reflexivity. Qed.

Lemma setitem_hit (h : heap) (r : loc) (xs : list Q) (i : nat) (v : Q) :
  h !! r = Some xs -> (i < length xs)%nat ->
  setitem r i v h = (<[r := <[i := v]> xs]> h, Return tt).
Proof.
  intros Hr Hi. unfold setitem. rewrite Hr.
  destruct (decide (i < length xs)%nat); [reflexivity | contradiction].
Qed.

Lemma touched_refl (r : loc) (i : nat) (h : heap) : touched r i h h.
Proof.
  split; [reflexivity|].
  destruct (h !! r) as [xs|] eqn:E; [|reflexivity].
  exists xs. repeat split; reflexivity.
Qed.

Lemma touched_trans (r : loc) (i : nat) (h1 h2 h3 : heap) :
  touched r i h1 h2 -> touched r i h2 h3 -> touched r i h1 h3.
Proof.
  intros [F12 A12] [F23 A23]. split.
  - intros l Hl. rewrite (F23 l Hl). apply F12, Hl.
  - destruct (h1 !! r) as [xs|].
    + destruct A12 as (ys & Hys & Hlen & Hsame). rewrite Hys in A23.
      destruct A23 as (zs & Hzs & Hlen' & Hsame').
      exists zs. split; [assumption|]. split; [congruence|].
      intros j Hj. rewrite (Hsame' j Hj). apply Hsame, Hj.
    + rewrite A12 in A23. assumption.
Qed.

Lemma touched_setitem (r : loc) (i : nat) (v : Q) (h : heap) :
  touched r i h (setitem r i v h).1.
Proof.
  unfold setitem. destruct (h !! r) as [xs|] eqn:E.
  - destruct (decide (i < length xs)%nat) as [Hi|Hi]; simpl.
    + split.
      * intros l Hl. apply lookup_insert_ne. congruence.
      * rewrite E. exists (<[i := v]> xs). rewrite lookup_insert_eq.
        split; [reflexivity|]. split; [apply length_insert|].
        intros j Hj. apply list_lookup_insert_ne. congruence.
    + apply touched_refl.
  - simpl. apply touched_refl.
Qed.

Lemma getitem_heap (r : loc) (i : nat) (h : heap) : (getitem r i h).1 = h.
Proof. unfold getitem. destruct (h !! r); reflexivity. Qed.

(** Taking a computation apart at its first step. *)
Lemma bind_touched {A B} (r : loc) (i : nat) (m : St A) (k : A -> St B) (h : heap) :
  touched r i h (m h).1 ->
  (forall (a : A) (h1 : heap), m h = (h1, Return a) -> touched r i h1 (k a h1).1) ->
  touched r i h (Store.bind m k h).1.
Proof.
  intros Hm Hk. unfold Store.bind.
  destruct (m h) as [h1 [a|e]] eqn:E; simpl in *.
  - eapply touched_trans; [exact Hm | apply Hk; reflexivity].
  - exact Hm.
Qed.

Lemma perturb_touched (self : _DNest4Model) (coords : loc) (d : draws) (h : heap) :
  touched coords (draw_randint d) h (perturb self coords d h).1.
Proof.
  unfold perturb.
  apply bind_touched; [apply touched_refl|].
  intros idx h1 Hidx. unfold lift, randint in Hidx.
  destruct (decide (_n_dim self = 0)%nat); [discriminate|].
  injection Hidx as <- <-.
  apply bind_touched; [rewrite getitem_heap; apply touched_refl|]. intros x h2 _.
  apply bind_touched; [apply touched_refl|]. intros w h3 _.
  apply bind_touched; [apply touched_setitem|]. intros _ h4 _.
  apply bind_touched; [apply touched_refl|]. intros cw h5 _.
  apply bind_touched; [apply touched_refl|]. intros cc h6 _.
  apply bind_touched; [rewrite getitem_heap; apply touched_refl|]. intros y h7 _.
  apply bind_touched; [apply touched_setitem|]. intros _ h8 _.
  apply touched_refl.
Qed.

(** What a call that finds everything in range does, step by step. *)
Lemma perturb_run (self : _DNest4Model) (coords : loc) (d : draws) (h : heap)
    (xs : list Q) (x w c : Q) :
  _n_dim self <> 0%nat ->
  h !! coords = Some xs ->
  xs !! draw_randint d = Some x ->
  _widths self !! draw_randint d = Some w ->
  _centers self !! draw_randint d = Some c ->
  perturb self coords d h =
    (<[coords :=
         <[draw_randint d :=
             wrap (x + w * (draw_uniform d - 0.5)) (c - 0.5 * w) (c + 0.5 * w)]> xs]> h,
     Return 0)%Q.
Proof.
  intros Hn Hh Hx Hw Hc.
  assert (Hlt : (draw_randint d < length xs)%nat) by (eapply lookup_lt_Some; eassumption).
  unfold perturb, Store.bind, lift, randint, ret.
  destruct (decide (_n_dim self = 0)%nat); [contradiction|].
  rewrite (getitem_hit h coords xs _ x Hh Hx).
  unfold index. rewrite Hw, Hc.
  rewrite (setitem_hit h coords xs _ _ Hh Hlt).
  set (y := (x + w * (draw_uniform d - 0.5))%Q).
  erewrite getitem_hit;
    [ | apply lookup_insert_eq | apply list_lookup_insert_eq; assumption ].
  erewrite setitem_hit;
    [ | apply lookup_insert_eq | rewrite length_insert; assumption ].
  rewrite insert_insert_eq, list_insert_insert_eq. reflexivity.
Qed.

(** A call that returns found everything in range. *)
Lemma perturb_returns_inv (self : _DNest4Model) (coords : loc) (d : draws)
    (h h' : heap) (r : Q) :
  perturb self coords d h = (h', Return r) ->
  exists (xs : list Q) (x w c : Q),
    _n_dim self <> 0%nat /\ h !! coords = Some xs /\
    xs !! draw_randint d = Some x /\
    _widths self !! draw_randint d = Some w /\
    _centers self !! draw_randint d = Some c.
Proof.
  unfold perturb, Store.bind, lift, randint.
  destruct (decide (_n_dim self = 0)%nat) as [|Hn]; [discriminate|].
  unfold getitem at 1. destruct (h !! coords) as [xs|] eqn:Hh; [|discriminate].
  unfold index. destruct (xs !! draw_randint d) as [x|] eqn:Hx; [|discriminate].
  destruct (_widths self !! draw_randint d) as [w|] eqn:Hw; [|discriminate].
  destruct (setitem coords (draw_randint d) _ h) as [h1 [[]|e]]; [|discriminate].
  destruct (_centers self !! draw_randint d) as [c|] eqn:Hc; [|discriminate].
  intros _. exists xs, x, w, c. repeat split; assumption.
Qed.

(** *** The claims about [perturb] and [log_likelihood] *)

(** C3.  Whatever the starting coordinates, a perturbation leaves the
    coordinate of the chosen dimension inside
    [center - width/2, center + width/2]; it gets there by wrap-around,
    being the shifted coordinate moved by a whole number of widths; and
    the call returns the proposal-correction term 0.0.  The chosen
    dimension is one of the model's, and its width is positive. *)
Theorem perturb_within_bounds (ll : list Q -> spec_float) (widths centers : list Q)
    (coords : loc) (d : draws) (h : heap) (xs : list Q) (x w c : Q) :
  h !! coords = Some xs ->
  xs !! draw_randint d = Some x ->
  widths !! draw_randint d = Some w ->
  centers !! draw_randint d = Some c ->
  (0 < w)%Q ->
  exists x' : Q,
    perturb (__init__ ll widths centers) coords d h =
      (<[coords := <[draw_randint d := x']> xs]> h, Return 0%Q) /\
    (c - w / 2 <= x')%Q /\ (x' <= c + w / 2)%Q /\
    exists k : Z, (x' == x + w * (draw_uniform d - 0.5) - inject_Z k * w)%Q.
Proof.
  intros Hh Hx Hw Hc Hpos.
  exists (wrap (x + w * (draw_uniform d - 0.5)) (c - 0.5 * w) (c + 0.5 * w))%Q.
  split.
  - apply perturb_run; try assumption.
    simpl. apply lookup_lt_Some in Hw. lia.
  - destruct (wrap_bounds (x + w * (draw_uniform d - 0.5)) (c - 0.5 * w) (c + 0.5 * w))%Q
      as [Hlo Hhi]; [lra|].
    split; [|split].
    + assert (E : (c - w / 2 == c - 0.5 * w)%Q) by field. rewrite E. exact Hlo.
    + assert (E : (c + w / 2 == c + 0.5 * w)%Q) by field. rewrite E.
      apply Qlt_le_weak. exact Hhi.
    + destruct (wrap_modular (x + w * (draw_uniform d - 0.5)) (c - 0.5 * w) (c + 0.5 * w))%Q
        as [k Hk].
      exists k. rewrite Hk. ring.
Qed.

Lemma perturb_within_bounds_witness :
  exists x' : Q,
    perturb (__init__ (fun _ => S754_zero false) [2; 4]%Q [0; 1]%Q) 0%nat
        {| draw_randint := 1; draw_uniform := 0.75%Q |} {[ 0%nat := [0.5; 2.5]%Q ]} =
      (<[0%nat := <[1%nat := x']> [0.5; 2.5]%Q]> {[ 0%nat := [0.5; 2.5]%Q ]}, Return 0%Q) /\
    (1 - 4 / 2 <= x')%Q /\ (x' <= 1 + 4 / 2)%Q /\
    exists k : Z, (x' == 2.5 + 4 * (0.75 - 0.5) - inject_Z k * 4)%Q.
Proof.
  apply (perturb_within_bounds (fun _ => S754_zero false) [2; 4]%Q [0; 1]%Q 0%nat
           {| draw_randint := 1; draw_uniform := 0.75%Q |} {[ 0%nat := [0.5; 2.5]%Q ]}
           [0.5; 2.5]%Q 2.5%Q 4%Q 1%Q);
    reflexivity.
Defined.

(** C10.  [perturb] works on the caller's array.  When the drawn dimension
    is one of the model's and of the array, the call returns and the array
    found afterwards under the same reference is the one it was given with
    the entry of that single dimension rewritten to the wrapped, shifted
    coordinate; a call returns in no other case.  Whatever the outcome, no
    other array of the store changes, the array keeps its length, and
    every coordinate other than the one of the drawn dimension keeps its
    value. *)
Theorem perturb_in_place (self : _DNest4Model) (coords : loc) (d : draws) (h : heap) :
  let h' := (perturb self coords d h).1 in
  (forall l : loc, l <> coords -> h' !! l = h !! l) /\
  (forall xs : list Q, h !! coords = Some xs ->
     exists xs' : list Q, h' !! coords = Some xs' /\ length xs' = length xs /\
       forall j : nat, j <> draw_randint d -> xs' !! j = xs !! j) /\
  (forall (xs : list Q) (x w c : Q),
     _n_dim self <> 0%nat ->
     h !! coords = Some xs ->
     xs !! draw_randint d = Some x ->
     _widths self !! draw_randint d = Some w ->
     _centers self !! draw_randint d = Some c ->
     perturb self coords d h =
       (<[coords :=
            <[draw_randint d :=
                wrap (x + w * (draw_uniform d - 0.5)) (c - 0.5 * w) (c + 0.5 * w)]> xs]> h,
        Return 0)%Q) /\
  (forall r : Q, (perturb self coords d h).2 = Return r ->
     exists (xs : list Q) (x w c : Q),
       _n_dim self <> 0%nat /\ h !! coords = Some xs /\
       xs !! draw_randint d = Some x /\
       _widths self !! draw_randint d = Some w /\
       _centers self !! draw_randint d = Some c).
Proof.
  intros h'. pose proof (perturb_touched self coords d h) as [Hframe Harr].
  fold h' in Hframe, Harr. split; [exact Hframe|]. split; [|split].
  - intros xs Hxs. rewrite Hxs in Harr. exact Harr.
  - intros xs x w c Hn Hh Hx Hw Hc. apply perturb_run; assumption.
  - intros r Hr.
    destruct (perturb self coords d h) as [h1 res] eqn:E. simpl in Hr. subst res.
    exact (perturb_returns_inv _ _ _ _ _ _ E).
Qed.

Lemma perturb_in_place_witness :
  perturb (__init__ (fun _ => S754_zero false) [2; 4]%Q [0; 1]%Q) 0%nat
      {| draw_randint := 1; draw_uniform := 0.75%Q |} {[ 0%nat := [0.5; 2.5]%Q ]}
    = (<[0%nat :=
           <[1%nat := wrap (2.5 + 4 * (0.75 - 0.5)) (1 - 0.5 * 4) (1 + 0.5 * 4)]>
             [0.5; 2.5]]> {[ 0%nat := [0.5; 2.5] ]},
       Return 0)%Q.
Proof.
  apply (proj1 (proj2 (proj2 (perturb_in_place
                                (__init__ (fun _ => S754_zero false) [2; 4]%Q [0; 1]%Q) 0%nat
                                {| draw_randint := 1; draw_uniform := 0.75%Q |}
                                {[ 0%nat := [0.5; 2.5]%Q ]})))
           [0.5; 2.5]%Q 2.5%Q 4%Q 1%Q).
  - simpl. lia.
  - reflexivity.
  - reflexivity.
  - reflexivity.
  - reflexivity.
Defined.

(** The array the move above leaves: the second coordinate went from 2.5
    to -0.5, the first one is as it was. *)
Example moved_coordinate :
  (perturb (__init__ (fun _ => S754_zero false) [2; 4]%Q [0; 1]%Q) 0%nat
     {| draw_randint := 1; draw_uniform := 0.75%Q |} {[ 0%nat := [0.5; 2.5]%Q ]}).1
    !! 0%nat
    = Some [0.5; wrap (2.5 + 4 * (0.75 - 0.5)) (1 - 0.5 * 4) (1 + 0.5 * 4)]%Q /\
  (wrap (2.5 + 4 * (0.75 - 0.5)) (1 - 0.5 * 4) (1 + 0.5 * 4) == -0.5)%Q /\
  ~ (wrap (2.5 + 4 * (0.75 - 0.5)) (1 - 0.5 * 4) (1 + 0.5 * 4) == 2.5)%Q.
Proof.
  split; [reflexivity|]. split; [reflexivity | discriminate].
Qed.

(** C5, as the code has it.  [log_likelihood] hands back what the user's
    log-likelihood function returns for the coordinates, unchanged; a
    not-a-number stays a not-a-number. *)
Theorem log_likelihood_passes_through (ll : list Q -> spec_float)
    (widths centers : list Q) (coords : list Q) :
  log_likelihood (__init__ ll widths centers) coords = ll coords /\
  (ll coords = S754_nan ->
   log_likelihood (__init__ ll widths centers) coords = S754_nan).
Proof. split; [reflexivity | intros E; exact E]. Qed.

Lemma log_likelihood_passes_through_witness :
  log_likelihood (__init__ (fun _ => S754_nan) [2]%Q [0]%Q) [1]%Q = S754_nan.
Proof.
  exact (proj2 (log_likelihood_passes_through (fun _ => S754_nan) [2]%Q [0]%Q [1]%Q)
           eq_refl).
Defined.

(** C5, as worded: a log-likelihood function that yields not-a-number is
    not turned into negative infinity. *)
Lemma log_likelihood_nan_not_mapped :
  log_likelihood (__init__ (fun _ => S754_nan) [2]%Q [0]%Q) [1]%Q = S754_nan /\
  log_likelihood (__init__ (fun _ => S754_nan) [2]%Q [0]%Q) [1]%Q <> S754_infinity true.
Proof. split; [reflexivity | discriminate]. Qed.

End PerturbFacts.

(** ** The estimator: proofs *)

Module DNest4Facts.
Import DNest4.

(** *** The integer cube root *)

Lemma icbrt_S (m : nat) :
  icbrt (S m) = if (S (icbrt m) ^ 3 <=? S m)%nat then S (icbrt m) else icbrt m.
Proof. reflexivity. Qed.

Lemma icbrt_spec (n : nat) : (icbrt n ^ 3 <= n < S (icbrt n) ^ 3)%nat.
Proof.
  induction n as [|m IH]; [simpl; lia|].
  rewrite icbrt_S. destruct (Nat.leb_spec (S (icbrt m) ^ 3) (S m)) as [Hle|Hgt].
  - split; [exact Hle|].
    assert (Hm : (S m = S (icbrt m) ^ 3)%nat) by lia.
    rewrite Hm. apply Nat.pow_lt_mono_l; lia.
  - split; lia.
Qed.

Example icbrt_values :
  map icbrt [0; 1; 7; 8; 26; 27; 63; 64]%nat = [0; 1; 1; 2; 2; 3; 3; 4]%nat.
Proof. reflexivity. Qed.

Lemma icbrt_pos (n : nat) : (1 <= n)%nat -> (1 <= icbrt n)%nat.
Proof.
  intros Hn. destruct (icbrt n) as [|k] eqn:E; [|lia].
  pose proof (icbrt_spec n) as [_ Hhi]. rewrite E in Hhi. simpl in Hhi. lia.
Qed.

Lemma icbrt_unique (n k : nat) : (k ^ 3 <= n < S k ^ 3)%nat -> icbrt n = k.
Proof.
  intros [Hlo Hhi]. pose proof (icbrt_spec n) as [Hlo' Hhi'].
  destruct (Nat.lt_trichotomy (icbrt n) k) as [Hlt|[Heq|Hgt]]; [|exact Heq|].
  - assert (S (icbrt n) ^ 3 <= k ^ 3)%nat by (apply Nat.pow_le_mono_l; lia). lia.
  - assert (S k ^ 3 <= icbrt n ^ 3)%nat by (apply Nat.pow_le_mono_l; lia). lia.
Qed.

(** *** [run] *)

(** C1.  After every run that completes, the stored results satisfy
    [log_evidence_error = sqrt(information / population_size)] and
    [evidence_error = exp(log_evidence_error)]. *)
Theorem run_error_estimates (self self' : DNest4NestedSampling) (oc : outcome)
    (r : pyval * pyval) :
  run self oc = (self', Return r) ->
  exists h lze : R,
    information self' = Return (PyFloat h) /\
    log_evidence_error self' = Return (PyFloat lze) /\
    evidence_error self' = Return (PyFloat (exp lze)) /\
    lze = sqrt (h / IZR (population_size self')).
Proof.
  destruct oc as [stats|e]; simpl; intros Hrun; [|discriminate].
  injection Hrun as <- _.
  exists (H stats), (sqrt (H stats / IZR (population_size self))).
  repeat split.
Qed.

Lemma run_error_estimates_witness :
  exists h lze : R,
    information (run (__init__ [ {| name := "k" |} ] None)
                   (Completes {| log_Z := 1; H := 2; posterior_samples := [] |})).1
      = Return (PyFloat h) /\
    log_evidence_error (run (__init__ [ {| name := "k" |} ] None)
                   (Completes {| log_Z := 1; H := 2; posterior_samples := [] |})).1
      = Return (PyFloat lze) /\
    evidence_error (run (__init__ [ {| name := "k" |} ] None)
                   (Completes {| log_Z := 1; H := 2; posterior_samples := [] |})).1
      = Return (PyFloat (exp lze)) /\
    lze = sqrt (h / IZR 25).
Proof.
  exact (run_error_estimates (__init__ [ {| name := "k" |} ] None) _
           (Completes {| log_Z := 1; H := 2; posterior_samples := [] |}) _ eq_refl).
Defined.

(** *** The setters *)

(** C9.  Assigning to a derived field ([evidence], [evidence_error],
    [log_evidence], [log_evidence_error], [information]) issues a warning
    and leaves the object as it was: every derived field reads back the
    value it had. *)
Theorem setter_warns_and_keeps (f : field) (self : DNest4NestedSampling)
    (value : pyval) :
  (exists msg : string, (setter f self value).2 = [msg]) /\
  (setter f self value).1 = self /\
  (forall g : field, getter g (setter f self value).1 = getter g self).
Proof.
  destruct f; simpl; (split; [eexists; reflexivity | split; reflexivity]).
Qed.

(** *** Before a run has finished *)

Lemma unfinished_attributes (self : DNest4NestedSampling) :
  unfinished self ->
  _log_evidence self = PyNone /\ _information self = PyNone /\
  _post_eval self = false /\ _logZ_err self = None /\
  _evidence_error self = None /\ _evidence self = None /\ _samples self = None.
Proof.
  induction 1 as [params pop | self e _ IH | self f value _ IH | np cb self _ IH].
  - repeat split.
  - exact IH.
  - destruct f; exact IH.
  - destruct IH as (? & ? & Hpe & ? & ? & ? & Hs).
    unfold posteriors. rewrite Hpe, Hs. simpl. repeat split; assumption.
Qed.

(** C7, as the code has it.  While no run has finished, [posteriors()],
    [evidence], [evidence_error] and [log_evidence_error] raise
    [AttributeError] for the attribute that does not exist yet, whereas
    [log_evidence] and [information] return [None]. *)
Theorem unfinished_reads (np_histogram : list R -> nat -> result (list R * list R))
    (np_cbrt_int : nat -> nat) (self : DNest4NestedSampling) :
  unfinished self ->
  (posteriors np_histogram np_cbrt_int self).2 = Raise (AttributeError "_samples") /\
  evidence self = Raise (AttributeError "_evidence") /\
  evidence_error self = Raise (AttributeError "_evidence_error") /\
  log_evidence_error self = Raise (AttributeError "_logZ_err") /\
  log_evidence self = Return PyNone /\
  information self = Return PyNone.
Proof.
  intros Hu. apply unfinished_attributes in Hu.
  destruct Hu as (Hle & Hi & Hpe & Hlze & Hee & He & Hs).
  unfold posteriors, evidence, evidence_error, log_evidence_error,
    log_evidence, information.
  rewrite Hpe, Hs, He, Hee, Hlze, Hle, Hi. repeat split.
Qed.

Lemma unfinished_reads_witness :
  (posteriors (fun _ _ => Raise ValueError) icbrt
     (run (__init__ [ {| name := "k" |} ] (Some 10%Z)) (Fails (SamplerError "nan"))).1).2
    = Raise (AttributeError "_samples") /\
  evidence (run (__init__ [ {| name := "k" |} ] (Some 10%Z)) (Fails (SamplerError "nan"))).1
    = Raise (AttributeError "_evidence") /\
  evidence_error (run (__init__ [ {| name := "k" |} ] (Some 10%Z)) (Fails (SamplerError "nan"))).1
    = Raise (AttributeError "_evidence_error") /\
  log_evidence_error (run (__init__ [ {| name := "k" |} ] (Some 10%Z)) (Fails (SamplerError "nan"))).1
    = Raise (AttributeError "_logZ_err") /\
  log_evidence (run (__init__ [ {| name := "k" |} ] (Some 10%Z)) (Fails (SamplerError "nan"))).1
    = Return PyNone /\
  information (run (__init__ [ {| name := "k" |} ] (Some 10%Z)) (Fails (SamplerError "nan"))).1
    = Return PyNone.
Proof.
  apply (unfinished_reads (fun _ _ => Raise ValueError) icbrt
           (run (__init__ [ {| name := "k" |} ] (Some 10%Z)) (Fails (SamplerError "nan"))).1).
  apply unfinished_failed, unfinished_init.
Defined.

(** C7, as worded: a freshly built sampler reads [log_evidence] without
    any error. *)
Lemma log_evidence_before_run_returns :
  log_evidence (__init__ [ {| name := "k" |} ] None) = Return PyNone /\
  ~ raises (log_evidence (__init__ [ {| name := "k" |} ] None)).
Proof. split; [reflexivity|]. intros [e He]. discriminate He. Qed.

(** *** [posteriors] *)

(** Every entry the loop stores comes from a histogram with [bins] bins. *)
Lemma fill_entries (np_histogram : list R -> nat -> result (list R * list R))
    (params : list SampledParameter) (samples : list (list R)) (bins : nat)
    (iis : list nat) :
  forall (acc d : marginals),
    fill np_histogram params samples bins iis acc = (d, Return tt) ->
    forall (key : string) (marginal center : list R),
      d !! key = Some (marginal, center) ->
      acc !! key = Some (marginal, center) \/
      exists (ii : nat) (edge : list R),
        ii ∈ iis /\
        np_histogram (column ii samples) bins = Return (marginal, edge) /\
        center = centers edge.
Proof.
  induction iis as [|ii rest IH]; intros acc d Hfill key marginal center Hd.
  - simpl in Hfill. injection Hfill as <-. left. exact Hd.
  - simpl in Hfill.
    destruct (np_histogram (column ii samples) bins) as [[mg edge]|e] eqn:Ehist;
      [|discriminate].
    destruct (index params ii) as [p|e] eqn:Ep; [|discriminate].
    destruct (IH _ _ Hfill key marginal center Hd) as [Hacc | (jj & edge' & Hin & Hh & Hc)].
    + destruct (decide (name p = key)) as [Heq|Hne].
      * subst key. rewrite lookup_insert_eq in Hacc. injection Hacc as <- <-.
        right. exists ii, edge. split; [apply list_elem_of_here|]. split; [exact Ehist | reflexivity].
      * rewrite lookup_insert_ne in Hacc by exact Hne. left. exact Hacc.
    + right. exists jj, edge'. split; [apply list_elem_of_further; exact Hin|]. split; assumption.
Qed.

(** The marginals of a first call come from histograms with
    [2 * int(np.cbrt(n))] bins for the [n] samples. *)
Lemma posteriors_bins (np_histogram : list R -> nat -> result (list R * list R))
    (np_cbrt_int : nat -> nat) (self : DNest4NestedSampling)
    (samples : list (list R)) (d : marginals) :
  _post_eval self = false ->
  _samples self = Some samples ->
  (posteriors np_histogram np_cbrt_int self).2 = Return d ->
  forall (key : string) (marginal center : list R),
    d !! key = Some (marginal, center) ->
    exists (ii : nat) (edge : list R),
      np_histogram (column ii samples) (2 * np_cbrt_int (length samples))
        = Return (marginal, edge) /\
      center = centers edge.
Proof.
  intros Hpe Hs Hret.
  unfold posteriors in Hret. rewrite Hpe, Hs in Hret. simpl in Hret.
  destruct (shape1 samples) as [nd|e] eqn:Eshape; [|discriminate].
  destruct (fill np_histogram (sampled_parameters self) samples
              (nbins np_cbrt_int samples) (seq 0 nd) ∅)
    as [d' [[]|e]] eqn:Efill; [|discriminate].
  simpl in Hret. injection Hret as ->.
  intros key marginal center Hd.
  destruct (fill_entries _ _ _ _ _ _ _ Efill key marginal center Hd)
    as [Hempty | (ii & edge & _ & Hh & Hc)].
  - rewrite lookup_empty in Hempty. discriminate.
  - exists ii, edge. split; assumption.
Qed.

(** C6.  With four posterior samples, for which [int(np.cbrt(4))] is 1,
    the first call of [posteriors()] computes every marginal with 2 bins,
    whereas [2 * cbrt(4)] is 3.17..., which rounds down to 3: the code
    rounds the cube root down before it doubles it. *)
Theorem posteriors_bin_count (np_histogram : list R -> nat -> result (list R * list R))
    (np_cbrt_int : nat -> nat) (self : DNest4NestedSampling)
    (samples : list (list R)) (d : marginals) :
  np_cbrt_int 4 = 1%nat ->
  _post_eval self = false ->
  _samples self = Some samples ->
  length samples = 4%nat ->
  (posteriors np_histogram np_cbrt_int self).2 = Return d ->
  (forall (key : string) (marginal center : list R),
      d !! key = Some (marginal, center) ->
      exists (ii : nat) (edge : list R),
        np_histogram (column ii samples) 2 = Return (marginal, edge) /\
        center = centers edge) /\
  floor_of_twice_cbrt 4 3 /\
  ~ floor_of_twice_cbrt 4 2.
Proof.
  intros Hcbrt Hpe Hs Hlen Hret. split; [|split].
  - intros key marginal center Hd.
    destruct (posteriors_bins _ _ _ _ _ Hpe Hs Hret key marginal center Hd)
      as (ii & edge & Hh & Hc).
    rewrite Hlen, Hcbrt in Hh. exists ii, edge. split; assumption.
  - unfold floor_of_twice_cbrt. simpl. lia.
  - unfold floor_of_twice_cbrt. simpl. lia.
Qed.

Lemma posteriors_bin_count_witness :
  let np := fun (_ : list R) (bins : nat) =>
              Return (replicate bins 1%R, replicate (S bins) 0%R) in
  let samples := [[0%R]; [1%R]; [2%R]; [3%R]] in
  let self := (run (__init__ [ {| name := "k" |} ] None)
                 (Completes {| log_Z := 1; H := 2; posterior_samples := samples |})).1 in
  exists d : marginals,
    (posteriors np icbrt self).2 = Return d /\
    d !! "k" = Some ([1%R; 1%R], centers [0%R; 0%R; 0%R]) /\
    (forall (key : string) (marginal center : list R),
        d !! key = Some (marginal, center) ->
        exists (ii : nat) (edge : list R),
          np (column ii samples) 2%nat = Return (marginal, edge) /\
          center = centers edge) /\
    floor_of_twice_cbrt 4 3 /\
    ~ floor_of_twice_cbrt 4 2.
Proof.
  intros np samples self. eexists. split; [reflexivity|]. split; [reflexivity|].
  apply (posteriors_bin_count np icbrt self samples); reflexivity.
Defined.

End DNest4Facts.

(** ** The selector: proofs *)

Module HypSelFacts.
Import DNest4 HypSel.

(** *** The range of [np.exp] *)

Lemma np_exp_in_range (x : R) :
  (exp_underflow <= x)%R -> (x <= exp_overflow)%R -> np_exp x = Num (exp x).
Proof.
  intros Hlo Hhi. unfold np_exp.
  destruct (Rlt_dec exp_overflow x) as [Hover|_]; [exfalso; Lra.lra|].
  destruct (Rlt_dec x exp_underflow) as [Hunder|_]; [exfalso; Lra.lra|].
  reflexivity.
Qed.

Lemma np_exp_overflows (x : R) : (exp_overflow < x)%R -> np_exp x = PosInf.
Proof.
  intros Hx. unfold np_exp.
  destruct (Rlt_dec exp_overflow x) as [_|Hno]; [reflexivity | contradiction].
Qed.

Lemma np_exp_underflows (x : R) : (x < exp_underflow)%R -> np_exp x = Num 0.
Proof.
  intros Hx. unfold np_exp.
  destruct (Rlt_dec exp_overflow x) as [Hover|_].
  - exfalso. unfold exp_overflow, exp_underflow in *. Lra.lra.
  - destruct (Rlt_dec x exp_underflow) as [_|Hno]; [reflexivity | contradiction].
Qed.

Lemma np_exp_0 : np_exp 0 = Num 1.
Proof.
  rewrite np_exp_in_range; [rewrite exp_0; reflexivity | | ];
    unfold exp_overflow, exp_underflow; Lra.lra.
Qed.

(** *** The array of Bayes factors *)

Lemma has_entries_ext (n : nat) (f g : nat -> nat -> npfloat) (m : matrix) :
  (forall r c : nat, (r < n)%nat -> (c < n)%nat -> f r c = g r c) ->
  has_entries n f m -> has_entries n g m.
Proof.
  intros Hfg [Hlen Hrows]. split; [exact Hlen|].
  intros r Hr. destruct (Hrows r Hr) as (row & Hrow & Hl & Hc).
  exists row. split; [exact Hrow|]. split; [exact Hl|].
  intros c Hcn. rewrite <- (Hfg r c Hr Hcn). apply Hc, Hcn.
Qed.

Lemma ones_entries (n : nat) : has_entries n (fun _ _ => Num 1) (ones n).
Proof.
  unfold ones. split; [apply length_replicate|].
  intros r Hr. exists (replicate n (Num 1)).
  split; [apply lookup_replicate_2; exact Hr|].
  split; [apply length_replicate|].
  intros c Hc. apply lookup_replicate_2. exact Hc.
Qed.

Lemma setitem2_entries (n : nat) (f : nat -> nat -> npfloat) (m : matrix)
    (j i : nat) (v : npfloat) :
  has_entries n f m -> (j < n)%nat -> (i < n)%nat ->
  exists m' : matrix,
    setitem2 m j i v = Return m' /\
    has_entries n (fun r c => if decide (r = j /\ c = i) then v else f r c) m'.
Proof.
  intros [Hlen Hrows] Hj Hi.
  destruct (Hrows j Hj) as (row & Hrow & Hl & Hc).
  unfold setitem2. rewrite Hrow.
  destruct (decide (i < length row)%nat) as [_|Hno]; [|lia].
  eexists. split; [reflexivity|]. split.
  - rewrite length_insert. exact Hlen.
  - intros r Hr. destruct (decide (r = j)) as [->|Hne].
    + exists (<[i := v]> row).
      split; [apply list_lookup_insert_eq; lia|].
      split; [rewrite length_insert; exact Hl|].
      intros c Hcn. destruct (decide (c = i)) as [->|Hci].
      * rewrite decide_True by (split; reflexivity).
        apply list_lookup_insert_eq. lia.
      * rewrite decide_False by (intros [_ ?]; contradiction).
        rewrite list_lookup_insert_ne by congruence. apply Hc, Hcn.
    + destruct (Hrows r Hr) as (row' & Hrow' & Hl' & Hc').
      exists row'. split; [rewrite list_lookup_insert_ne by congruence; exact Hrow'|].
      split; [exact Hl'|].
      intros c Hcn. rewrite decide_False by (intros [? _]; contradiction).
      apply Hc', Hcn.
Qed.

Lemma inner_entries (l : nat -> R) (n i : nat) :
  (i < n)%nat ->
  forall (rest : list DNest4NestedSampling) (j : nat) (m : matrix),
    (j + length rest = n)%nat ->
    (forall (k : nat) (ns : DNest4NestedSampling),
        rest !! k = Some ns -> _log_evidence ns = PyFloat (l (j + k)%nat)) ->
    has_entries n (entry_at l i j) m ->
    exists m' : matrix,
      inner i (PyFloat (l i)) j rest m = Return m' /\
      has_entries n (entry_at l i n) m'.
Proof.
  intros Hi. induction rest as [|nsj rest IH]; intros j m Hlen Hlog Hm.
  - simpl in *. exists m. split; [reflexivity|].
    assert (Hjn : j = n) by lia. subst j. exact Hm.
  - simpl in Hlen. simpl inner. unfold log_evidence. simpl Py.bind.
    pose proof (Hlog 0%nat nsj eq_refl) as Hj. rewrite Nat.add_0_r in Hj. rewrite Hj.
    assert (Hrest : forall (k : nat) (ns : DNest4NestedSampling),
               rest !! k = Some ns -> _log_evidence ns = PyFloat (l (S j + k)%nat)).
    { intros k ns Hk. replace (S j + k)%nat with (j + S k)%nat by lia.
      apply Hlog. exact Hk. }
    destruct (decide (i <> j)) as [Hij|Hij].
    + simpl.
      destruct (setitem2_entries n _ m j i (np_exp (l i - l j)) Hm) as (m1 & Hset & Hm1);
        [lia | exact Hi |].
      rewrite Hset. simpl. apply IH; [lia | exact Hrest |].
      eapply has_entries_ext; [|exact Hm1].
      intros r c Hr Hc. unfold entry_at.
      destruct (decide (r = j /\ c = i)) as [[-> ->]|Hno].
      * rewrite decide_True; [reflexivity|]. split; [right; split; [reflexivity | lia] | exact Hij].
      * repeat case_decide; try reflexivity; exfalso; lia.
    + simpl. apply IH; [lia | exact Hrest |].
      eapply has_entries_ext; [|exact Hm].
      intros r c Hr Hc. unfold entry_at.
      repeat case_decide; try reflexivity; exfalso; lia.
Qed.

Lemma outer_entries (l : nat -> R) (n : nat) (all : list DNest4NestedSampling) :
  length all = n ->
  (forall (k : nat) (ns : DNest4NestedSampling),
      all !! k = Some ns -> _log_evidence ns = PyFloat (l k)) ->
  forall (rest : list DNest4NestedSampling) (i : nat) (m : matrix),
    (i + length rest = n)%nat ->
    (forall (k : nat) (ns : DNest4NestedSampling),
        rest !! k = Some ns -> _log_evidence ns = PyFloat (l (i + k)%nat)) ->
    has_entries n (entry_at l i 0) m ->
    exists m' : matrix,
      outer all i rest m = Return m' /\
      has_entries n (entry_at l n 0) m'.
Proof.
  intros Hall Hlogall. induction rest as [|nsi rest IH]; intros i m Hlen Hlog Hm.
  - simpl in *. exists m. split; [reflexivity|].
    assert (Hin : i = n) by lia. subst i. exact Hm.
  - simpl in Hlen. simpl outer. unfold log_evidence. simpl Py.bind.
    pose proof (Hlog 0%nat nsi eq_refl) as Hi. rewrite Nat.add_0_r in Hi. rewrite Hi.
    destruct (inner_entries l n i ltac:(lia) all 0%nat m) as (m1 & Hin & Hm1);
      [lia | exact Hlogall | exact Hm |].
    rewrite Hin. simpl. apply IH.
    + lia.
    + intros k ns Hk. replace (S i + k)%nat with (i + S k)%nat by lia.
      apply Hlog. exact Hk.
    + eapply has_entries_ext; [|exact Hm1].
      intros r c Hr Hc. unfold entry_at.
      repeat case_decide; try reflexivity; exfalso; lia.
Qed.

Lemma loge_complete (nss : list DNest4NestedSampling) :
  completed nss ->
  forall (k : nat) (ns : DNest4NestedSampling),
    nss !! k = Some ns -> _log_evidence ns = PyFloat (loge nss k).
Proof.
  unfold completed. intros Hc k ns Hk.
  rewrite forallb_forall in Hc.
  assert (Hin : In ns nss).
  { apply list_elem_of_In. eapply list_elem_of_lookup_2. exact Hk. }
  specialize (Hc ns Hin). unfold has_log_evidence in Hc.
  unfold loge. rewrite Hk. destruct (_log_evidence ns); [discriminate | reflexivity].
Qed.

(** With every run completed, [bayes_factors] returns the [n] by [n]
    table with 1 on the diagonal and, in row [r] and column [c], the
    evidence of model [c] over that of model [r]. *)
Lemma bayes_factors_complete (self : HypSelector) (nss : list DNest4NestedSampling) :
  nested_samplers self = Some nss ->
  number_of_models self = length nss ->
  completed nss ->
  exists fr : frame,
    bayes_factors self = Return fr /\
    labels fr = map model_name (seq 0 (length nss)) /\
    has_entries (length nss)
      (fun r c => if decide (c <> r) then np_exp (loge nss c - loge nss r) else Num 1)
      (entries fr).
Proof.
  intros Hns Hn Hc. unfold bayes_factors. rewrite Hns, Hn.
  destruct (outer_entries (loge nss) (length nss) nss eq_refl (loge_complete nss Hc)
              nss 0%nat (ones (length nss))) as (m & Hout & Hm).
  - reflexivity.
  - intros k ns Hk. simpl. apply loge_complete; assumption.
  - eapply has_entries_ext; [|apply ones_entries].
    intros r c _ _. unfold entry_at. rewrite decide_False; [reflexivity|]. lia.
  - rewrite Hout. simpl. eexists. split; [reflexivity|]. split; [reflexivity|]. simpl.
    eapply has_entries_ext; [|exact Hm].
    intros r c Hr Hcn. unfold entry_at.
    repeat case_decide; try reflexivity; exfalso; lia.
Qed.

Lemma logZ_loge (self : HypSelector) (nss : list DNest4NestedSampling)
    (i : nat) (z : R) :
  nested_samplers self = Some nss -> logZ self i = Some z ->
  (i < length nss)%nat /\ loge nss i = z.
Proof.
  intros Hns. unfold logZ, loge. rewrite Hns.
  destruct (nss !! i) as [ns|] eqn:Ei; [|discriminate].
  destruct (_log_evidence ns); [discriminate|].
  intros [= ->]. split; [eapply lookup_lt_Some; exact Ei | reflexivity].
Qed.

Lemma has_entries_entry (n : nat) (f : nat -> nat -> npfloat) (fr : frame) (i j : nat) :
  has_entries n f (entries fr) -> (i < n)%nat -> (j < n)%nat ->
  entry fr i j = Some (f i j).
Proof.
  intros [_ Hrows] Hi Hj. destruct (Hrows i Hi) as (row & Hrow & _ & Hc).
  unfold entry. rewrite Hrow. apply Hc, Hj.
Qed.

(** C2, as the code has it.  With every run completed, the entry in row
    [i] and column [j] of the table [bayes_factors()] returns is
    [exp(logZ_j - logZ_i)], the evidence of the column's model over that
    of the row's model. *)
Theorem bayes_factors_entry (self : HypSelector) (nss : list DNest4NestedSampling) :
  nested_samplers self = Some nss ->
  number_of_models self = length nss ->
  completed nss ->
  exists fr : frame,
    bayes_factors self = Return fr /\
    forall (i j : nat) (zi zj : R),
      logZ self i = Some zi -> logZ self j = Some zj ->
      entry fr i j = Some (np_exp (zj - zi)).
Proof.
  intros Hns Hn Hc.
  destruct (bayes_factors_complete self nss Hns Hn Hc) as (fr & Hbf & _ & Hm).
  exists fr. split; [exact Hbf|].
  intros i j zi zj Hzi Hzj.
  destruct (logZ_loge self nss i zi Hns Hzi) as [Hi Ei].
  destruct (logZ_loge self nss j zj Hns Hzj) as [Hj Ej].
  rewrite (has_entries_entry _ _ fr i j Hm Hi Hj). rewrite <- Ei, <- Ej.
  destruct (decide (j <> i)) as [_|Heq]; [reflexivity|].
  assert (j = i) by lia. subst j.
  replace (loge nss i - loge nss i)%R with 0%R by Lra.lra.
  rewrite np_exp_0. reflexivity.
Qed.

Lemma bayes_factors_entry_witness :
  exists fr : frame,
    bayes_factors two_ran = Return fr /\
    forall (i j : nat) (zi zj : R),
      logZ two_ran i = Some zi -> logZ two_ran j = Some zj ->
      entry fr i j = Some (np_exp (zj - zi)).
Proof.
  apply (bayes_factors_entry two_ran [ran 1; ran 0]); reflexivity.
Defined.

(** C2, as worded: with log-evidences 1 and 0, the entry in row 0 and
    column 1 is [exp(0 - 1)], not [exp(1 - 0)]. *)
Lemma transposed_bayes_factor :
  (exists fr : frame,
     bayes_factors two_ran = Return fr /\ entry fr 0 1 = Some (Num (exp (0 - 1)))) /\
  ~ row_over_column two_ran.
Proof.
  assert (Hlo : np_exp (0 - 1) = Num (exp (0 - 1))).
  { apply np_exp_in_range; unfold exp_overflow, exp_underflow; Lra.lra. }
  assert (Hhi : np_exp (1 - 0) = Num (exp (1 - 0))).
  { apply np_exp_in_range; unfold exp_overflow, exp_underflow; Lra.lra. }
  split.
  - eexists. split; [reflexivity|]. unfold entry. simpl. rewrite Hlo. reflexivity.
  - intros Hclaim.
    specialize (Hclaim _ 0%nat 1%nat 1%R 0%R eq_refl eq_refl eq_refl).
    unfold entry in Hclaim. simpl in Hclaim. rewrite Hlo, Hhi in Hclaim.
    injection Hclaim as Hexp.
    assert (Hlt : (exp (0 - 1) < exp (1 - 0))%R) by (apply exp_increasing; Lra.lra).
    Lra.lra.
Qed.

(** C8, as the code has it.  With every run completed, every diagonal
    entry of the table [bayes_factors()] returns is 1, and for two
    different models [BF[i,j]] and [BF[j,i]] are [np.exp(d)] and
    [np.exp(-d)] for the same [d = logZ_j - logZ_i].  While [|d| <= 709]
    both are finite and positive; once [|d| >= 746] one of them is
    infinite and the other 0.0, and their product is not-a-number. *)
Theorem bayes_factors_reciprocal_in_range (self : HypSelector)
    (nss : list DNest4NestedSampling) :
  nested_samplers self = Some nss ->
  number_of_models self = length nss ->
  completed nss ->
  exists fr : frame,
    bayes_factors self = Return fr /\
    forall (i j : nat) (zi zj : R),
      logZ self i = Some zi -> logZ self j = Some zj ->
      entry fr i i = Some (Num 1) /\
      (i <> j ->
       entry fr i j = Some (np_exp (zj - zi)) /\
       entry fr j i = Some (np_exp (zi - zj))) /\
      ((Rabs (zj - zi) <= 709)%R ->
       exists a b : R,
         entry fr i j = Some (Num a) /\ entry fr j i = Some (Num b) /\
         (0 < a)%R /\ (0 < b)%R) /\
      ((746 <= Rabs (zj - zi))%R ->
       exists a b : npfloat,
         entry fr i j = Some a /\ entry fr j i = Some b /\
         (a = PosInf /\ b = Num 0 \/ a = Num 0 /\ b = PosInf) /\
         np_mul a b = NaN).
Proof.
  intros Hns Hn Hc.
  destruct (bayes_factors_complete self nss Hns Hn Hc) as (fr & Hbf & _ & Hm).
  exists fr. split; [exact Hbf|].
  intros i j zi zj Hzi Hzj.
  destruct (logZ_loge self nss i zi Hns Hzi) as [Hi Ei].
  destruct (logZ_loge self nss j zj Hns Hzj) as [Hj Ej].
  rewrite (has_entries_entry _ _ fr i i Hm Hi Hi).
  rewrite (has_entries_entry _ _ fr i j Hm Hi Hj).
  rewrite (has_entries_entry _ _ fr j i Hm Hj Hi).
  rewrite Ei, Ej.
  split; [rewrite decide_False by (intros Hne; apply Hne; reflexivity); reflexivity|].
  split; [|split].
  - intros Hij. rewrite !decide_True by congruence. split; reflexivity.
  - intros Hd. destruct (decide (j <> i)) as [Hne|Heq].
    + rewrite decide_True by congruence.
      rewrite (np_exp_in_range (zj - zi)), (np_exp_in_range (zi - zj)).
      * eexists _, _. split; [reflexivity|]. split; [reflexivity|].
        split; apply exp_pos.
      * unfold exp_underflow. unfold Rabs in Hd.
        destruct (Rcase_abs (zj - zi)); Lra.lra.
      * unfold exp_overflow. unfold Rabs in Hd.
        destruct (Rcase_abs (zj - zi)); Lra.lra.
      * unfold exp_underflow. unfold Rabs in Hd.
        destruct (Rcase_abs (zj - zi)); Lra.lra.
      * unfold exp_overflow. unfold Rabs in Hd.
        destruct (Rcase_abs (zj - zi)); Lra.lra.
    + rewrite decide_False by (intros Hne; apply Heq; congruence).
      exists 1%R, 1%R. split; [reflexivity|]. split; [reflexivity|]. split; Lra.lra.
  - intros Hd.
    assert (Hne : j <> i).
    { intros ->. assert (Hz : zj = zi) by congruence. rewrite Hz in Hd.
      unfold Rabs in Hd. destruct (Rcase_abs (zi - zi)); Lra.lra. }
    rewrite decide_True by exact Hne. rewrite decide_True by congruence.
    unfold Rabs in Hd. destruct (Rcase_abs (zj - zi)) as [Hneg|Hpos].
    + rewrite (np_exp_underflows (zj - zi)) by (unfold exp_underflow; Lra.lra).
      rewrite (np_exp_overflows (zi - zj)) by (unfold exp_overflow; Lra.lra).
      eexists _, _. split; [reflexivity|]. split; [reflexivity|].
      split; [right; split; reflexivity|].
      simpl. unfold inf_times.
      destruct (Rlt_dec 0 0) as [H0|_]; [exfalso; Lra.lra | reflexivity].
    + rewrite (np_exp_overflows (zj - zi)) by (unfold exp_overflow; Lra.lra).
      rewrite (np_exp_underflows (zi - zj)) by (unfold exp_underflow; Lra.lra).
      eexists _, _. split; [reflexivity|]. split; [reflexivity|].
      split; [left; split; reflexivity|].
      simpl. unfold inf_times.
      destruct (Rlt_dec 0 0) as [H0|_]; [exfalso; Lra.lra | reflexivity].
Qed.

Lemma bayes_factors_reciprocal_in_range_witness :
  exists fr : frame,
    bayes_factors far_apart = Return fr /\
    forall (i j : nat) (zi zj : R),
      logZ far_apart i = Some zi -> logZ far_apart j = Some zj ->
      entry fr i i = Some (Num 1) /\
      (i <> j ->
       entry fr i j = Some (np_exp (zj - zi)) /\
       entry fr j i = Some (np_exp (zi - zj))) /\
      ((Rabs (zj - zi) <= 709)%R ->
       exists a b : R,
         entry fr i j = Some (Num a) /\ entry fr j i = Some (Num b) /\
         (0 < a)%R /\ (0 < b)%R) /\
      ((746 <= Rabs (zj - zi))%R ->
       exists a b : npfloat,
         entry fr i j = Some a /\ entry fr j i = Some b /\
         (a = PosInf /\ b = Num 0 \/ a = Num 0 /\ b = PosInf) /\
         np_mul a b = NaN).
Proof.
  apply (bayes_factors_reciprocal_in_range far_apart [ran 1000; ran 0]); reflexivity.
Defined.

(** C8, as worded: with log-evidences 1000 and 0, the entry in row 0 and
    column 1 is [exp(-1000)], which is 0.0, the entry in row 1 and column 0
    is [exp(1000)], which is infinite, and their product is not-a-number,
    not 1. *)
Lemma overflowing_bayes_factors :
  (exists fr : frame,
     bayes_factors far_apart = Return fr /\
     entry fr 0 1 = Some (Num 0) /\ entry fr 1 0 = Some PosInf /\
     np_mul (Num 0) PosInf = NaN) /\
  ~ reciprocal_table far_apart.
Proof.
  assert (Hlo : np_exp (0 - 1000) = Num 0).
  { apply np_exp_underflows. unfold exp_underflow. Lra.lra. }
  assert (Hhi : np_exp (1000 - 0) = PosInf).
  { apply np_exp_overflows. unfold exp_overflow. Lra.lra. }
  assert (Hnan : np_mul (Num 0) PosInf = NaN).
  { simpl. unfold inf_times.
    destruct (Rlt_dec 0 0) as [H0|_]; [exfalso; Lra.lra | reflexivity]. }
  split.
  - eexists. split; [reflexivity|]. unfold entry. simpl. rewrite Hlo, Hhi.
    repeat split. exact Hnan.
  - intros Hclaim.
    destruct (Hclaim _ 0%nat 1%nat eq_refl) as (a & b & Ha & Hb & Hab);
      [unfold number_of_models; simpl; lia | unfold number_of_models; simpl; lia |].
    unfold entry in Ha, Hb. simpl in Ha, Hb. rewrite Hlo in Ha. rewrite Hhi in Hb.
    injection Ha as <-. injection Hb as <-. rewrite Hnan in Hab. discriminate Hab.
Qed.

(** *** A batch that goes through *)

Example model_names : map model_name [0; 1; 12]%nat = ["model_0"; "model_1"; "model_12"].
Proof. reflexivity. Qed.

(** Two models with log-evidences 0 and 1: the table lists model 1 first. *)
Example run_nested_sampling_sorts :
  exists e0 e1 : pyval,
    value (run_nested_sampling two_fresh both_complete) =
      Return (Some [ {| model := "model_1"; row_log_evidence := PyFloat (INR 1);
                        row_log_evidence_error := e1 |};
                     {| model := "model_0"; row_log_evidence := PyFloat (INR 0);
                        row_log_evidence_error := e0 |} ]).
Proof.
  eexists _, _. unfold run_nested_sampling. simpl.
  unfold sort_values, before. simpl.
  destruct (Rle_dec 1 0) as [Hle|_]; [exfalso; Lra.lra|].
  reflexivity.
Qed.

(** *** A run that raises *)

Lemma run_each_aborts (env : nat -> outcome) (e : exn) :
  forall (nss : list DNest4NestedSampling) (s k : nat),
    (k < length nss)%nat ->
    env (s + k)%nat = Fails e ->
    (forall i : nat, (i < k)%nat -> exists o, env (s + i)%nat = Completes o) ->
    exists nss' : list DNest4NestedSampling,
      run_each env s nss = (nss', Raise e) /\
      length nss' = length nss /\
      (forall i : nat, (k <= i)%nat -> nss' !! i = nss !! i) /\
      (forall (i : nat) (ns : DNest4NestedSampling),
          (i < k)%nat -> nss !! i = Some ns ->
          nss' !! i = Some (run ns (env (s + i)%nat)).1).
Proof.
  induction nss as [|ns rest IH]; intros s k Hk Hfail Hbefore; [simpl in Hk; lia|].
  destruct k as [|k].
  - rewrite Nat.add_0_r in Hfail. exists (ns :: rest).
    simpl. rewrite Hfail. simpl.
    split; [reflexivity|]. split; [reflexivity|]. split; [reflexivity|].
    intros i ns' Hi. lia.
  - destruct (Hbefore 0%nat ltac:(lia)) as [o Ho]. rewrite Nat.add_0_r in Ho.
    destruct (IH (S s) k) as (rest' & Hrun & Hlen & Hlater & Hearlier).
    + simpl in Hk. lia.
    + replace (S s + k)%nat with (s + S k)%nat by lia. exact Hfail.
    + intros i Hi. replace (S s + i)%nat with (s + S i)%nat by lia.
      apply Hbefore. lia.
    + eexists. simpl run_each. rewrite Ho. simpl. rewrite Hrun.
      split; [reflexivity|]. split; [simpl; congruence|]. split.
      * intros [|i] Hi; [lia|]. simpl. apply Hlater. lia.
      * intros [|i] ns' Hi Hns.
        -- simpl in Hns. injection Hns as <-. rewrite Nat.add_0_r, Ho. reflexivity.
        -- simpl in Hns. simpl. replace (s + S i)%nat with (S s + i)%nat by lia.
           apply Hearlier; [lia | exact Hns].
Qed.

(** C4, as the code has it.  When the sampler of model [k] is the first
    to raise, the exception leaves [run_nested_sampling]: no table is
    returned, [selection] is not updated, the samplers from [k] on are as
    they were (those after [k] are never run), and the samplers before [k]
    keep the results of their runs. *)
Theorem run_nested_sampling_aborts (self : HypSelector)
    (nss : list DNest4NestedSampling) (env : nat -> outcome) (k : nat) (e : exn) :
  nested_samplers self = Some nss ->
  (k < length nss)%nat ->
  env k = Fails e ->
  (forall i : nat, (i < k)%nat -> exists o, env i = Completes o) ->
  value (run_nested_sampling self env) = Raise e /\
  selection (after (run_nested_sampling self env)) = selection self /\
  exists nss' : list DNest4NestedSampling,
    nested_samplers (after (run_nested_sampling self env)) = Some nss' /\
    length nss' = length nss /\
    (forall i : nat, (k <= i)%nat -> nss' !! i = nss !! i) /\
    (forall (i : nat) (ns : DNest4NestedSampling),
        (i < k)%nat -> nss !! i = Some ns -> nss' !! i = Some (run ns (env i)).1).
Proof.
  intros Hns Hk Hfail Hbefore.
  destruct (run_each_aborts env e nss 0%nat k Hk Hfail Hbefore)
    as (nss' & Hrun & Hlen & Hlater & Hearlier).
  unfold run_nested_sampling. rewrite Hns, Hrun. simpl.
  split; [reflexivity|]. split; [reflexivity|].
  exists nss'. split; [reflexivity|]. split; [exact Hlen|]. split; assumption.
Qed.

Lemma run_nested_sampling_aborts_witness :
  value (run_nested_sampling two_fresh first_fails)
    = Raise (SamplerError "solver did not converge") /\
  selection (after (run_nested_sampling two_fresh first_fails)) = selection two_fresh /\
  exists nss' : list DNest4NestedSampling,
    nested_samplers (after (run_nested_sampling two_fresh first_fails)) = Some nss' /\
    length nss' = 2%nat /\
    (forall i : nat, (0 <= i)%nat ->
       nss' !! i = [__init__ [ {| name := "k" |} ] None;
                    __init__ [ {| name := "k" |} ] None] !! i) /\
    (forall (i : nat) (ns : DNest4NestedSampling),
        (i < 0)%nat ->
        [__init__ [ {| name := "k" |} ] None;
         __init__ [ {| name := "k" |} ] None] !! i = Some ns ->
        nss' !! i = Some (run ns (first_fails i)).1).
Proof.
  apply (run_nested_sampling_aborts two_fresh
           [__init__ [ {| name := "k" |} ] None; __init__ [ {| name := "k" |} ] None]
           first_fails 0%nat (SamplerError "solver did not converge")).
  - reflexivity.
  - simpl. lia.
  - reflexivity.
  - intros i Hi. lia.
Defined.

(** C4, as worded: of two models, the first one's sampler raises and the
    second one's would complete; the call raises, returns no table, and
    the second sampler is never run. *)
Lemma failed_run_aborts_batch :
  value (run_nested_sampling two_fresh first_fails)
    = Raise (SamplerError "solver did not converge") /\
  nested_samplers (after (run_nested_sampling two_fresh first_fails))
    = nested_samplers two_fresh /\
  ~ skips_and_continues two_fresh first_fails.
Proof.
  split; [reflexivity|]. split; [reflexivity|].
  intros (table & Htable & _). discriminate Htable.
Qed.

End HypSelFacts.


(** ** The selection table: proofs *)

Module SelectionFacts.
Import DNest4 HypSel.

(** *** Sorting *)

Lemma before_total (a b : row) : before a b = false -> before b a = true.
Proof.
  unfold before.
  destruct (row_log_evidence a) as [|x], (row_log_evidence b) as [|y];
    try discriminate; try reflexivity.
  destruct (Rle_dec y x) as [|Hyx]; [discriminate|]. intros _.
  destruct (Rle_dec x y) as [|Hxy]; [reflexivity|]. exfalso. Lra.lra.
Qed.

Lemma before_trans (a b c : row) :
  before a b = true -> before b c = true -> before a c = true.
Proof.
  unfold before.
  destruct (row_log_evidence a) as [|x], (row_log_evidence b) as [|y],
    (row_log_evidence c) as [|z]; try discriminate; try reflexivity.
  destruct (Rle_dec y x) as [Hyx|]; [|discriminate].
  destruct (Rle_dec z y) as [Hzy|]; [|discriminate]. intros _ _.
  destruct (Rle_dec z x) as [|Hzx]; [reflexivity|]. exfalso. Lra.lra.
Qed.

Lemma insert_row_perm (r : row) (rows : list row) : insert_row r rows ≡ₚ r :: rows.
Proof.
  induction rows as [|r' rest IH]; simpl; [reflexivity|].
  destruct (before r r'); [reflexivity|].
  rewrite IH. apply Permutation_swap.
Qed.

Lemma sort_values_perm (rows : list row) : sort_values rows ≡ₚ rows.
Proof.
  induction rows as [|r rest IH]; simpl; [reflexivity|].
  unfold sort_values in *. simpl. rewrite insert_row_perm, IH. reflexivity.
Qed.

Lemma insert_row_sorted (r : row) (rows : list row) :
  StronglySorted (fun a b => before a b = true) rows ->
  StronglySorted (fun a b => before a b = true) (insert_row r rows).
Proof.
  induction 1 as [|r' rest Hsorted IH Hall]; simpl.
  - repeat constructor.
  - destruct (before r r') eqn:E.
    + constructor; [constructor; assumption|].
      constructor; [exact E|].
      eapply Forall_impl; [exact Hall|]. intros c Hc. eapply before_trans; eassumption.
    + constructor; [exact IH|].
      rewrite insert_row_perm. constructor; [apply before_total; exact E | exact Hall].
Qed.

Lemma sort_values_sorted (rows : list row) :
  StronglySorted (fun a b => before a b = true) (sort_values rows).
Proof.
  induction rows as [|r rest IH]; [constructor|].
  unfold sort_values in *. simpl. apply insert_row_sorted, IH.
Qed.

Lemma sorted_lookup {A} (R : A -> A -> Prop) (l : list A) :
  StronglySorted R l ->
  forall (i j : nat) (a b : A), (i < j)%nat -> l !! i = Some a -> l !! j = Some b -> R a b.
Proof.
  induction 1 as [|x rest _ IH Hall]; intros i j a b Hij Ha Hb; [discriminate|].
  destruct j as [|j]; [lia|]. simpl in Hb. destruct i as [|i].
  - simpl in Ha. injection Ha as <-.
    rewrite Forall_forall in Hall. apply Hall.
    eapply list_elem_of_lookup_2. exact Hb.
  - simpl in Ha. eapply (IH i j); [lia | exact Ha | exact Hb].
Qed.

(** *** Running every sampler *)

Lemma run_each_completes (env : nat -> outcome) :
  forall (nss : list DNest4NestedSampling) (s : nat),
    (forall i : nat, (i < length nss)%nat -> exists o, env (s + i)%nat = Completes o) ->
    exists nss' : list DNest4NestedSampling,
      run_each env s nss = (nss', Return tt) /\
      length nss' = length nss /\
      forall (i : nat) (ns : DNest4NestedSampling),
        nss !! i = Some ns -> nss' !! i = Some (run ns (env (s + i)%nat)).1.
Proof.
  induction nss as [|ns rest IH]; intros s Hall.
  - exists []. repeat split. intros i ns Hi. discriminate.
  - destruct (Hall 0%nat ltac:(simpl; lia)) as [o Ho]. rewrite Nat.add_0_r in Ho.
    destruct (IH (S s)) as (rest' & Hrun & Hlen & Hlook).
    { intros i Hi. replace (S s + i)%nat with (s + S i)%nat by lia.
      apply Hall. simpl. lia. }
    eexists. simpl run_each. rewrite Ho. simpl. rewrite Hrun.
    split; [reflexivity|]. split; [simpl; congruence|].
    intros [|i] ns' Hi; simpl in Hi.
    + injection Hi as <-. rewrite Nat.add_0_r, Ho. reflexivity.
    + simpl. replace (s + S i)%nat with (S s + i)%nat by lia. apply Hlook, Hi.
Qed.

(** The row [build_frame] makes for sampler [ns] at position [i]. *)
Lemma build_frame_rows :
  forall (nss : list DNest4NestedSampling) (s : nat),
    (forall (i : nat) (ns : DNest4NestedSampling),
        nss !! i = Some ns -> exists y : R, _logZ_err ns = Some y) ->
    exists rows : list row,
      build_frame s nss = Return rows /\
      length rows = length nss /\
      forall (i : nat) (ns : DNest4NestedSampling),
        nss !! i = Some ns ->
        exists y : R, _logZ_err ns = Some y /\
          rows !! i = Some {| model := model_name (s + i);
                              row_log_evidence := _log_evidence ns;
                              row_log_evidence_error := PyFloat y |}.
Proof.
  induction nss as [|ns rest IH]; intros s Hall.
  - exists []. repeat split. intros i ns Hi. discriminate.
  - destruct (Hall 0%nat ns eq_refl) as [y Hy].
    destruct (IH (S s)) as (rows & Hbuild & Hlen & Hlook).
    { intros i ns' Hi. apply (Hall (S i)). exact Hi. }
    eexists. simpl build_frame. unfold log_evidence, log_evidence_error.
    rewrite Hy. simpl. rewrite Hbuild. simpl.
    split; [reflexivity|]. split; [simpl; congruence|].
    intros [|i] ns' Hi; simpl in Hi.
    + injection Hi as <-. exists y. rewrite Nat.add_0_r. split; [exact Hy | reflexivity].
    + destruct (Hlook i ns' Hi) as (y' & Hy' & Hrow). exists y'.
      split; [exact Hy'|]. simpl. replace (s + S i)%nat with (S s + i)%nat by lia. exact Hrow.
Qed.

(** With every run completing, the call goes through: the frame has one
    row per sampler, in order, and the table is that frame sorted. *)
Lemma run_nested_sampling_completes (self : HypSelector)
    (nss : list DNest4NestedSampling) (env : nat -> outcome) :
  nested_samplers self = Some nss ->
  nss <> [] ->
  (forall i : nat, (i < length nss)%nat -> exists o, env i = Completes o) ->
  exists (rows : list row),
    run_nested_sampling self env =
      {| after := set_selection
                    (set_samplers self (imap (fun i ns => (run ns (env i)).1) nss))
                    (sort_values rows);
         warned := [];
         value := Return (Some (sort_values rows)) |} /\
    length rows = length nss /\
    forall (i : nat) (ns : DNest4NestedSampling) (o : SamplerOutput),
      nss !! i = Some ns -> env i = Completes o ->
      rows !! i = Some {| model := model_name i;
                          row_log_evidence := PyFloat (log_Z o);
                          row_log_evidence_error :=
                            PyFloat (sqrt (H o / IZR (population_size ns))) |}.
Proof.
  intros Hns Hne Hall.
  destruct (run_each_completes env nss 0%nat Hall) as (nss' & Hrun & Hlen & Hlook).
  assert (Hnss' : nss' = imap (fun i ns => (run ns (env i)).1) nss).
  { apply list_eq. intros i. rewrite list_lookup_imap.
    destruct (nss !! i) as [ns|] eqn:Ei; simpl.
    - apply Hlook. exact Ei.
    - apply lookup_ge_None. apply lookup_ge_None in Ei. lia. }
  assert (Hran : forall (i : nat) (ns' : DNest4NestedSampling),
             nss' !! i = Some ns' ->
             exists (ns : DNest4NestedSampling) (o : SamplerOutput),
               nss !! i = Some ns /\ env i = Completes o /\
               ns' = (run ns (Completes o)).1).
  { intros i ns' Hi. assert (Hlt : (i < length nss)%nat).
    { rewrite <- Hlen. eapply lookup_lt_Some. exact Hi. }
    destruct (lookup_lt_is_Some_2 nss i Hlt) as [ns Ens].
    destruct (Hall i Hlt) as [o Ho]. exists ns, o.
    split; [exact Ens|]. split; [exact Ho|].
    pose proof (Hlook i ns Ens) as Hi'. simpl in Hi'. rewrite Ho in Hi'. congruence. }
  destruct (build_frame_rows nss' 0%nat) as (rows & Hbuild & Hrlen & Hrows).
  { intros i ns' Hi. destruct (Hran i ns' Hi) as (ns & o & _ & _ & ->).
    simpl. eexists. reflexivity. }
  exists rows. split; [|split].
  - unfold run_nested_sampling. rewrite Hns, Hrun, Hbuild. simpl.
    destruct rows as [|r rows]; [|rewrite <- Hnss'; reflexivity].
    exfalso. apply Hne. destruct nss; [reflexivity|]. simpl in *. lia.
  - congruence.
  - intros i ns o Ens Ho.
    pose proof (Hlook i ns Ens) as Hi'. simpl in Hi'. rewrite Ho in Hi'.
    destruct (Hrows i _ Hi') as (y & Hy & Hrow). simpl in Hy, Hrow.
    injection Hy as <-. exact Hrow.
Qed.

(** X1.  When every sampler's run completes, [run_nested_sampling]
    returns a table with exactly one row per model: the row of model [i]
    carries the name [model_i], the log-evidence of its run and
    [sqrt(H / population_size)]; the same table is stored in [selection],
    and every sampler holds the results of its run. *)
Theorem selection_table_rows (self : HypSelector) (nss : list DNest4NestedSampling)
    (env : nat -> outcome) :
  nested_samplers self = Some nss ->
  nss <> [] ->
  (forall i : nat, (i < length nss)%nat -> exists o, env i = Completes o) ->
  exists table : list row,
    value (run_nested_sampling self env) = Return (Some table) /\
    selection (after (run_nested_sampling self env)) = Some table /\
    nested_samplers (after (run_nested_sampling self env))
      = Some (imap (fun i ns => (run ns (env i)).1) nss) /\
    length table = length nss /\
    forall (i : nat) (ns : DNest4NestedSampling) (o : SamplerOutput),
      nss !! i = Some ns -> env i = Completes o ->
      {| model := model_name i;
         row_log_evidence := PyFloat (log_Z o);
         row_log_evidence_error := PyFloat (sqrt (H o / IZR (population_size ns))) |}
        ∈ table.
Proof.
  intros Hns Hne Hall.
  destruct (run_nested_sampling_completes self nss env Hns Hne Hall)
    as (rows & Hcall & Hlen & Hrows).
  exists (sort_values rows). rewrite Hcall. simpl.
  split; [reflexivity|]. split; [reflexivity|]. split; [reflexivity|].
  split; [rewrite sort_values_perm; exact Hlen|].
  intros i ns o Ens Ho. rewrite sort_values_perm.
  eapply list_elem_of_lookup_2. apply (Hrows i ns o Ens Ho).
Qed.

Lemma selection_table_rows_witness :
  exists table : list row,
    value (run_nested_sampling two_fresh both_complete) = Return (Some table) /\
    selection (after (run_nested_sampling two_fresh both_complete)) = Some table /\
    nested_samplers (after (run_nested_sampling two_fresh both_complete))
      = Some (imap (fun i ns => (run ns (both_complete i)).1)
                [__init__ [ {| name := "k" |} ] None; __init__ [ {| name := "k" |} ] None]) /\
    length table = 2%nat /\
    forall (i : nat) (ns : DNest4NestedSampling) (o : SamplerOutput),
      [__init__ [ {| name := "k" |} ] None; __init__ [ {| name := "k" |} ] None] !! i
        = Some ns ->
      both_complete i = Completes o ->
      {| model := model_name i;
         row_log_evidence := PyFloat (log_Z o);
         row_log_evidence_error := PyFloat (sqrt (H o / IZR (population_size ns))) |}
        ∈ table.
Proof.
  apply (selection_table_rows two_fresh
           [__init__ [ {| name := "k" |} ] None; __init__ [ {| name := "k" |} ] None]
           both_complete).
  - reflexivity.
  - discriminate.
  - intros i _. eexists. reflexivity.
Defined.

(** X2.  When every sampler's run completes, the table that
    [run_nested_sampling] returns is in descending order of log-evidence:
    a row never has a smaller log-evidence than a row below it. *)
Theorem selection_table_descending (self : HypSelector)
    (nss : list DNest4NestedSampling) (env : nat -> outcome) :
  nested_samplers self = Some nss ->
  nss <> [] ->
  (forall i : nat, (i < length nss)%nat -> exists o, env i = Completes o) ->
  exists table : list row,
    value (run_nested_sampling self env) = Return (Some table) /\
    forall (i j : nat) (a b : row),
      (i < j)%nat -> table !! i = Some a -> table !! j = Some b ->
      exists x y : R,
        row_log_evidence a = PyFloat x /\ row_log_evidence b = PyFloat y /\ (y <= x)%R.
Proof.
  intros Hns Hne Hall.
  destruct (run_nested_sampling_completes self nss env Hns Hne Hall)
    as (rows & Hcall & Hlen & Hrows).
  exists (sort_values rows). rewrite Hcall. simpl. split; [reflexivity|].
  assert (Hfloat : forall r : row, r ∈ sort_values rows ->
                     exists x : R, row_log_evidence r = PyFloat x).
  { intros r Hr. rewrite sort_values_perm in Hr.
    apply list_elem_of_lookup_1 in Hr as [i Hi].
    assert (Hlt : (i < length nss)%nat) by (rewrite <- Hlen; eapply lookup_lt_Some; exact Hi).
    destruct (lookup_lt_is_Some_2 nss i Hlt) as [ns Ens].
    destruct (Hall i Hlt) as [o Ho].
    rewrite (Hrows i ns o Ens Ho) in Hi. injection Hi as <-. eexists. reflexivity. }
  intros i j a b Hij Ha Hb.
  destruct (Hfloat a (list_elem_of_lookup_2 _ _ _ Ha)) as [x Hx].
  destruct (Hfloat b (list_elem_of_lookup_2 _ _ _ Hb)) as [y Hy].
  exists x, y. split; [exact Hx|]. split; [exact Hy|].
  pose proof (sorted_lookup _ _ (sort_values_sorted rows) i j a b Hij Ha Hb) as Hab.
  unfold before in Hab. rewrite Hx, Hy in Hab.
  destruct (Rle_dec y x) as [Hle|]; [exact Hle | discriminate].
Qed.

Lemma selection_table_descending_witness :
  exists table : list row,
    value (run_nested_sampling two_fresh both_complete) = Return (Some table) /\
    forall (i j : nat) (a b : row),
      (i < j)%nat -> table !! i = Some a -> table !! j = Some b ->
      exists x y : R,
        row_log_evidence a = PyFloat x /\ row_log_evidence b = PyFloat y /\ (y <= x)%R.
Proof.
  apply (selection_table_descending two_fresh
           [__init__ [ {| name := "k" |} ] None; __init__ [ {| name := "k" |} ] None]
           both_complete).
  - reflexivity.
  - discriminate.
  - intros i _. eexists. reflexivity.
Defined.

(** *** Labels *)

Lemma model_name_inj (i j : nat) : model_name i = model_name j -> i = j.
Proof.
  unfold model_name. intros E. simpl in E. injection E as E.
  exact (pretty_nat_inj i j E).
Qed.

(** X3.  The labels of the table [bayes_factors] returns are
    [model_0 ... model_(n-1)] for the [n] model files: one per model, no
    two alike. *)
Theorem bayes_factors_labels (self : HypSelector) (fr : frame) :
  bayes_factors self = Return fr ->
  labels fr = map model_name (seq 0 (number_of_models self)) /\
  length (labels fr) = number_of_models self /\
  NoDup (labels fr).
Proof.
  unfold bayes_factors. destruct (nested_samplers self) as [nss|]; [|discriminate].
  destruct (outer nss 0 nss (ones (number_of_models self))) as [m|e]; [|discriminate].
  simpl. intros [= <-]. simpl.
  split; [reflexivity|]. split; [rewrite length_map, length_seq; reflexivity|].
  apply NoDup_fmap_2; [|apply NoDup_seq].
  intros i j. apply model_name_inj.
Qed.

Lemma bayes_factors_labels_witness :
  labels {| labels := ["model_0"; "model_1"];
            entries := [[Num 1; np_exp (0 - 1)]; [np_exp (1 - 0); Num 1]] |}
    = map model_name (seq 0 (number_of_models two_ran)) /\
  length (labels {| labels := ["model_0"; "model_1"];
                    entries := [[Num 1; np_exp (0 - 1)]; [np_exp (1 - 0); Num 1]] |})
    = number_of_models two_ran /\
  NoDup (labels {| labels := ["model_0"; "model_1"];
                   entries := [[Num 1; np_exp (0 - 1)]; [np_exp (1 - 0); Num 1]] |}).
Proof.
  apply (bayes_factors_labels two_ran). reflexivity.
Defined.

End SelectionFacts.


(** ** Bayes factors: further proofs *)

Module BayesFactorFacts.
Import DNest4 HypSel HypSelFacts SelectionFacts.

(** *** An unfinished run among several models *)

Lemma inner_unfinished (n i : nat) (loge_i : pyval) :
  (i < n)%nat ->
  forall (rest : list DNest4NestedSampling) (j : nat) (m : matrix),
    (j + length rest <= n)%nat ->
    (exists f, has_entries n f m) ->
    (exists (p : nat) (ns : DNest4NestedSampling),
        rest !! p = Some ns /\ (j + p)%nat <> i /\
        (loge_i = PyNone \/ _log_evidence ns = PyNone)) ->
    inner i loge_i j rest m = Raise TypeError.
Proof.
  intros Hi. induction rest as [|nsj rest IH]; intros j m Hlen Hm (p & ns & Hp & Hne & Hnone).
  - discriminate.
  - simpl in Hlen. simpl inner. unfold log_evidence. simpl Py.bind.
    destruct (decide (i <> j)) as [Hij|Hij].
    + destruct loge_i as [|a]; [reflexivity|].
      destruct (_log_evidence nsj) as [|b] eqn:Ej; [reflexivity|].
      simpl. destruct Hm as [f Hm].
      destruct (setitem2_entries n f m j i (np_exp (a - b)) Hm) as (m1 & Hset & Hm1);
        [lia | exact Hi |].
      rewrite Hset. simpl. apply IH; [lia | eexists; exact Hm1 |].
      destruct p as [|p].
      * simpl in Hp. injection Hp as <-. destruct Hnone as [?|Hn]; [discriminate | congruence].
      * exists p, ns. split; [exact Hp|]. split; [lia | exact Hnone].
    + simpl. apply IH; [lia | exact Hm |].
      destruct p as [|p]; [exfalso; lia|].
      exists p, ns. split; [exact Hp|]. split; [lia | exact Hnone].
Qed.

(** X4.  With two or more models, one sampler per model file, and some
    sampler whose run has not finished (its log-evidence is still [None]),
    [bayes_factors] raises [TypeError]: no table is computed. *)
Theorem bayes_factors_unfinished (self : HypSelector)
    (nss : list DNest4NestedSampling) (k : nat) (ns : DNest4NestedSampling) :
  nested_samplers self = Some nss ->
  number_of_models self = length nss ->
  (2 <= length nss)%nat ->
  nss !! k = Some ns ->
  _log_evidence ns = PyNone ->
  bayes_factors self = Raise TypeError.
Proof.
  intros Hns Hn Hlen Hk Hnone. unfold bayes_factors. rewrite Hns, Hn.
  destruct nss as [|ns0 rest] eqn:Enss; [simpl in Hlen; lia|]. rewrite <- Enss.
  assert (Hinner : inner 0 (_log_evidence ns0) 0 nss (ones (length nss)) = Raise TypeError).
  { apply (inner_unfinished (length nss)).
    - rewrite Enss. simpl. lia.
    - lia.
    - eexists. apply ones_entries.
    - destruct k as [|k].
      + simpl in Hk. injection Hk as ->.
        destruct rest as [|ns1 rest]; [simpl in Hlen; lia|].
        exists 1%nat, ns1. rewrite Enss. split; [reflexivity|]. split; [lia|].
        left. exact Hnone.
      + exists (S k), ns. rewrite Enss. split; [exact Hk|]. split; [lia|].
        right. exact Hnone. }
  rewrite Enss at 2. simpl outer. unfold log_evidence. simpl Py.bind.
  rewrite Hinner. reflexivity.
Qed.

Lemma bayes_factors_unfinished_witness :
  bayes_factors two_fresh = Raise TypeError.
Proof.
  apply (bayes_factors_unfinished two_fresh
           [__init__ [ {| name := "k" |} ] None; __init__ [ {| name := "k" |} ] None]
           1%nat (__init__ [ {| name := "k" |} ] None));
    [reflexivity | reflexivity | simpl; lia | reflexivity | reflexivity].
Defined.

(** X5.  With a single model, [bayes_factors] never looks at a
    log-evidence: it returns the 1 by 1 table holding 1, labelled
    [model_0], whether or not the run has finished. *)
Theorem bayes_factors_single (self : HypSelector) (ns : DNest4NestedSampling) :
  nested_samplers self = Some [ns] ->
  number_of_models self = 1%nat ->
  bayes_factors self = Return {| labels := ["model_0"]; entries := [[Num 1]] |}.
Proof.
  intros Hns Hn. unfold bayes_factors. rewrite Hns, Hn. reflexivity.
Qed.

Lemma bayes_factors_single_witness :
  bayes_factors {| _model_files := ["hb_models/model_0.py"];
                   nested_samplers := Some [__init__ [ {| name := "k" |} ] None];
                   selection := None |}
    = Return {| labels := ["model_0"]; entries := [[Num 1]] |}.
Proof.
  apply (bayes_factors_single _ (__init__ [ {| name := "k" |} ] None)); reflexivity.
Defined.

(** *** After a batch *)

Lemma completed_imap_run (env : nat -> outcome) (nss : list DNest4NestedSampling) :
  (forall i : nat, (i < length nss)%nat -> exists o, env i = Completes o) ->
  completed (imap (fun i ns => (run ns (env i)).1) nss).
Proof.
  intros Hall. unfold completed. apply forallb_forall. intros ns' Hin.
  apply list_elem_of_In, list_elem_of_lookup_1 in Hin as [i Hi].
  rewrite list_lookup_imap in Hi.
  destruct (nss !! i) as [ns|] eqn:Ens; [|discriminate]. simpl in Hi. injection Hi as <-.
  destruct (Hall i) as [o Ho]; [eapply lookup_lt_Some; exact Ens|].
  rewrite Ho. reflexivity.
Qed.

(** X7.  After a batch in which every run completed, [bayes_factors]
    goes through, and the entry in row [i] and column [j] is
    [exp(log_Z_j - log_Z_i)] for the log-evidences the runs of models [i]
    and [j] produced. *)
Theorem bayes_factors_after_batch (self : HypSelector)
    (nss : list DNest4NestedSampling) (env : nat -> outcome) :
  nested_samplers self = Some nss ->
  number_of_models self = length nss ->
  nss <> [] ->
  (forall i : nat, (i < length nss)%nat -> exists o, env i = Completes o) ->
  exists fr : frame,
    bayes_factors (after (run_nested_sampling self env)) = Return fr /\
    forall (i j : nat) (oi oj : SamplerOutput),
      (i < length nss)%nat -> (j < length nss)%nat ->
      env i = Completes oi -> env j = Completes oj ->
      entry fr i j = Some (np_exp (log_Z oj - log_Z oi)).
Proof.
  intros Hns Hn Hne Hall.
  destruct (run_nested_sampling_completes self nss env Hns Hne Hall)
    as (rows & Hcall & _ & _).
  rewrite Hcall. simpl.
  set (nss' := imap (fun i ns => (run ns (env i)).1) nss).
  set (self' := set_selection (set_samplers self nss') (sort_values rows)).
  assert (Hlen : length nss' = length nss) by apply length_imap.
  destruct (bayes_factors_complete self' nss' eq_refl) as (fr & Hbf & _ & Hm).
  { unfold self', number_of_models. simpl. rewrite Hlen. exact Hn. }
  { apply completed_imap_run, Hall. }
  exists fr. split; [exact Hbf|].
  intros i j oi oj Hi Hj Hoi Hoj. rewrite Hlen in Hm.
  rewrite (has_entries_entry _ _ fr i j Hm Hi Hj).
  assert (Hloge : forall (p : nat) (o : SamplerOutput),
             (p < length nss)%nat -> env p = Completes o -> loge nss' p = log_Z o).
  { intros p o Hp Ho. unfold loge, nss'. rewrite list_lookup_imap.
    destruct (lookup_lt_is_Some_2 nss p Hp) as [ns Ens]. rewrite Ens. simpl.
    rewrite Ho. reflexivity. }
  rewrite (Hloge i oi Hi Hoi), (Hloge j oj Hj Hoj).
  destruct (decide (j <> i)) as [|Heq]; [reflexivity|].
  assert (j = i) by lia. subst j. assert (oi = oj) by congruence. subst oj.
  replace (log_Z oi - log_Z oi)%R with 0%R by Lra.lra. rewrite np_exp_0. reflexivity.
Qed.

Lemma bayes_factors_after_batch_witness :
  exists fr : frame,
    bayes_factors (after (run_nested_sampling two_fresh both_complete)) = Return fr /\
    forall (i j : nat) (oi oj : SamplerOutput),
      (i < 2)%nat -> (j < 2)%nat ->
      both_complete i = Completes oi -> both_complete j = Completes oj ->
      entry fr i j = Some (np_exp (log_Z oj - log_Z oi)).
Proof.
  apply (bayes_factors_after_batch two_fresh
           [__init__ [ {| name := "k" |} ] None; __init__ [ {| name := "k" |} ] None]
           both_complete).
  - reflexivity.
  - reflexivity.
  - discriminate.
  - intros i _. eexists. reflexivity.
Defined.

End BayesFactorFacts.


(** ** The estimator: further proofs *)

Module PosteriorFacts.
Import DNest4.

(** *** Bin centres *)

Lemma centers_step (a b : R) (edge : list R) :
  centers (a :: b :: edge) = ((a + b) / 2)%R :: centers (b :: edge).
Proof. reflexivity. Qed.

(** X8.  The bin centres computed from the edges of a histogram are the
    midpoints of consecutive edges: [k + 1] edges give [k] centres, and
    the centre of bin [i] is [(edge[i] + edge[i+1]) / 2]. *)
Theorem centers_midpoints (edge : list R) :
  length (centers edge) = Nat.pred (length edge) /\
  forall (i : nat) (a b : R),
    edge !! i = Some a -> edge !! S i = Some b ->
    centers edge !! i = Some ((a + b) / 2)%R.
Proof.
  induction edge as [|a edge IH]; [split; [reflexivity | intros; discriminate]|].
  destruct edge as [|b edge]; [split; [reflexivity | intros []; intros; discriminate]|].
  rewrite centers_step. destruct IH as [IHlen IHlook]. split.
  - simpl length. rewrite IHlen. reflexivity.
  - intros [|i] x y Hx Hy.
    + simpl in Hx, Hy. injection Hx as <-. injection Hy as <-. reflexivity.
    + simpl. apply IHlook; assumption.
Qed.

Lemma centers_midpoints_witness :
  centers [0; 1; 3]%R !! 1%nat = Some ((1 + 3) / 2)%R.
Proof.
  exact (proj2 (centers_midpoints [0; 1; 3]%R) 1%nat 1%R 3%R eq_refl eq_refl).
Defined.

(** *** The cache *)

Lemma posteriors_returned (np_histogram : list R -> nat -> result (list R * list R))
    (np_cbrt_int : nat -> nat) (self self' : DNest4NestedSampling) (d : marginals) :
  posteriors np_histogram np_cbrt_int self = (self', Return d) ->
  _post_eval self' = true /\ _posteriors self' = Some d.
Proof.
  unfold posteriors. destruct (_post_eval self) eqn:Epe.
  - destruct (_posteriors self) as [d0|] eqn:Ed; simpl; [|discriminate].
    intros [= <- <-]. split; assumption.
  - destruct (_samples self) as [samples|]; simpl; [|discriminate].
    destruct (shape1 samples) as [nd|e]; [|discriminate].
    destruct (fill _ _ _ _ _ _) as [d' [[]|e]]; [|discriminate].
    intros [= <- <-]. split; reflexivity.
Qed.

(** X9.  Once [posteriors] has returned a dictionary, every later call
    returns that same dictionary and changes nothing, whatever the
    histogram routine would now compute, and also after further calls of
    [run]: a new run does not reset the cache. *)
Theorem posteriors_cached (np_histogram : list R -> nat -> result (list R * list R))
    (np_cbrt_int : nat -> nat) (self self' : DNest4NestedSampling) (d : marginals) :
  posteriors np_histogram np_cbrt_int self = (self', Return d) ->
  forall (np_histogram' : list R -> nat -> result (list R * list R))
         (np_cbrt_int' : nat -> nat),
    posteriors np_histogram' np_cbrt_int' self' = (self', Return d) /\
    forall oc : outcome,
      posteriors np_histogram' np_cbrt_int' (run self' oc).1
        = ((run self' oc).1, Return d).
Proof.
  intros Hret np' cb'. destruct (posteriors_returned _ _ _ _ _ Hret) as [Hpe Hd]. split.
  - unfold posteriors. rewrite Hpe, Hd. reflexivity.
  - intros [o|e]; unfold posteriors; simpl; rewrite Hpe, Hd; reflexivity.
Qed.

Lemma posteriors_cached_witness :
  let np := fun (_ : list R) (bins : nat) =>
              Return (replicate bins 1%R, replicate (S bins) 0%R) in
  let self := (run (__init__ [ {| name := "k" |} ] None)
                 (Completes {| log_Z := 1; H := 2; posterior_samples := [[0%R]] |})).1 in
  posteriors (fun _ _ => Raise ValueError) (fun _ => 0%nat) (posteriors np icbrt self).1
    = ((posteriors np icbrt self).1,
       Return {[ "k" := ([1%R; 1%R], centers [0%R; 0%R; 0%R]) ]}) /\
  forall oc : outcome,
    posteriors (fun _ _ => Raise ValueError) (fun _ => 0%nat)
      (run (posteriors np icbrt self).1 oc).1
    = ((run (posteriors np icbrt self).1 oc).1,
       Return {[ "k" := ([1%R; 1%R], centers [0%R; 0%R; 0%R]) ]}).
Proof.
  intros np self.
  apply (posteriors_cached np icbrt self (posteriors np icbrt self).1
           {[ "k" := ([1%R; 1%R], centers [0%R; 0%R; 0%R]) ]} eq_refl
           (fun _ _ => Raise ValueError) (fun _ => 0%nat)).
Defined.

(** *** What the dictionary holds *)

Lemma fill_seq (np_histogram : list R -> nat -> result (list R * list R))
    (params : list SampledParameter) (samples : list (list R)) (bins : nat) :
  forall (len s : nat) (acc : marginals),
    (s + len <= length params)%nat ->
    (forall ii : nat, (s <= ii < s + len)%nat ->
       exists mg edge, np_histogram (column ii samples) bins = Return (mg, edge)) ->
    NoDup (map name (take len (drop s params))) ->
    exists d : marginals,
      fill np_histogram params samples bins (seq s len) acc = (d, Return tt) /\
      (forall (ii : nat) (p : SampledParameter) (mg edge : list R),
          (s <= ii < s + len)%nat -> params !! ii = Some p ->
          np_histogram (column ii samples) bins = Return (mg, edge) ->
          d !! name p = Some (mg, centers edge)) /\
      (forall key : string,
          key ∉ map name (take len (drop s params)) -> d !! key = acc !! key).
Proof.
  induction len as [|len IH]; intros s acc Hlen Hhist Hnd.
  - exists acc. split; [reflexivity|]. split; [intros; lia | intros; reflexivity].
  - destruct (Hhist s ltac:(lia)) as (mg & edge & Hs).
    destruct (lookup_lt_is_Some_2 params s ltac:(lia)) as [p Hp].
    assert (Hdrop : take (S len) (drop s params) = p :: take len (drop (S s) params)).
    { rewrite (drop_S _ _ _ Hp). reflexivity. }
    rewrite Hdrop in Hnd. simpl in Hnd. apply NoDup_cons in Hnd as [Hfresh Hnd].
    destruct (IH (S s) (<[name p := (mg, centers edge)]> acc)) as (d & Hfill & Hin & Hout).
    { lia. }
    { intros ii Hii. apply Hhist. lia. }
    { exact Hnd. }
    exists d. split; [|split].
    + simpl. rewrite Hs. unfold index. rewrite Hp. exact Hfill.
    + intros ii q mg' edge' Hii Hq Hh.
      destruct (decide (ii = s)) as [->|Hne].
      * assert (q = p) by congruence. subst q.
        assert (mg' = mg /\ edge' = edge) as [-> ->] by (split; congruence).
        rewrite (Hout _ Hfresh). apply lookup_insert_eq.
      * apply (Hin ii q mg' edge'); [lia | exact Hq | exact Hh].
    + intros key Hkey. rewrite Hdrop in Hkey. simpl in Hkey.
      apply not_elem_of_cons in Hkey as [Hne Hkey].
      rewrite (Hout key Hkey). apply lookup_insert_ne. congruence.
Qed.

(** X10.  On the first call after a run, when the samples have [nd]
    columns, there are at least [nd] parameters, the first [nd] of them
    have distinct names and the histogram routine succeeds on every
    column, [posteriors] returns a dictionary with exactly one entry per
    parameter: under the name of parameter [ii], the densities that the
    histogram routine gives for column [ii] with
    [2 * int(np.cbrt(n))] bins, [n] being the number of samples, and the
    midpoints of its bin edges; and it marks the result as computed. *)
Theorem posteriors_marginals (np_histogram : list R -> nat -> result (list R * list R))
    (np_cbrt_int : nat -> nat) (self : DNest4NestedSampling)
    (samples : list (list R)) (nd : nat) :
  _post_eval self = false ->
  _samples self = Some samples ->
  shape1 samples = Return nd ->
  (nd <= length (sampled_parameters self))%nat ->
  NoDup (map name (take nd (sampled_parameters self))) ->
  (forall ii : nat, (ii < nd)%nat ->
     exists mg edge,
       np_histogram (column ii samples) (nbins np_cbrt_int samples) = Return (mg, edge)) ->
  exists d : marginals,
    posteriors np_histogram np_cbrt_int self = (set_posteriors self true d, Return d) /\
    (forall (ii : nat) (p : SampledParameter) (mg edge : list R),
        (ii < nd)%nat -> sampled_parameters self !! ii = Some p ->
        np_histogram (column ii samples) (nbins np_cbrt_int samples) = Return (mg, edge) ->
        d !! name p = Some (mg, centers edge)) /\
    (forall key : string,
        is_Some (d !! key) -> key ∈ map name (take nd (sampled_parameters self))).
Proof.
  intros Hpe Hs Hshape Hnd Hnames Hhist.
  destruct (fill_seq np_histogram (sampled_parameters self) samples
              (nbins np_cbrt_int samples) nd 0%nat ∅) as (d & Hfill & Hin & Hout).
  { lia. }
  { intros ii Hii. apply Hhist. lia. }
  { rewrite drop_0. exact Hnames. }
  exists d. split; [|split].
  - unfold posteriors. rewrite Hpe, Hs. simpl. rewrite Hshape, Hfill. reflexivity.
  - intros ii p mg edge Hii. apply Hin. lia.
  - intros key [v Hv].
    destruct (decide (key ∈ map name (take nd (sampled_parameters self)))) as [|Hno];
      [assumption|].
    rewrite drop_0 in Hout. rewrite (Hout key Hno), lookup_empty in Hv. discriminate.
Qed.

Lemma posteriors_marginals_witness :
  let np := fun (_ : list R) (bins : nat) =>
              Return (replicate bins 1%R, replicate (S bins) 0%R) in
  let samples := [[0%R]; [1%R]] in
  let self := (run (__init__ [ {| name := "k" |} ] None)
                 (Completes {| log_Z := 1; H := 2; posterior_samples := samples |})).1 in
  exists d : marginals,
    posteriors np icbrt self = (set_posteriors self true d, Return d) /\
    (forall (ii : nat) (p : SampledParameter) (mg edge : list R),
        (ii < 1)%nat -> sampled_parameters self !! ii = Some p ->
        np (column ii samples) (nbins icbrt samples) = Return (mg, edge) ->
        d !! name p = Some (mg, centers edge)) /\
    (forall key : string,
        is_Some (d !! key) -> key ∈ map name (take 1 (sampled_parameters self))).
Proof.
  intros np samples self.
  apply (posteriors_marginals np icbrt self samples 1%nat).
  - reflexivity.
  - reflexivity.
  - reflexivity.
  - simpl. lia.
  - simpl. apply NoDup_singleton.
  - intros ii _. eexists _, _. reflexivity.
Defined.

(** *** What [run] gives back *)



End PosteriorFacts.


(** ** Perturbation: further proofs *)

Module PriorFacts.
Import Store DNest4Model Priors PerturbFacts.

(** *** The estimated intervals *)

Lemma Qmin_list_le (x : Q) (rv : list Q) (y : Q) : In y rv -> (Qmin_list x rv <= y)%Q.
Proof.
  induction rv as [|z rv IH]; simpl; [contradiction|].
  intros [->|Hin].
  - apply Q.le_min_l.
  - eapply Qle_trans; [apply Q.le_min_r | apply IH, Hin].
Qed.

Lemma Qmax_list_ge (x : Q) (rv : list Q) (y : Q) : In y rv -> (y <= Qmax_list x rv)%Q.
Proof.
  induction rv as [|z rv IH]; simpl; [contradiction|].
  intros [->|Hin].
  - apply Q.le_max_l.
  - eapply Qle_trans; [apply IH, Hin | apply Q.le_max_r].
Qed.

Lemma Qmin_list_in (x : Q) (rv : list Q) : In (Qmin_list x rv) (x :: rv).
Proof.
  induction rv as [|y rv IH]; simpl; [left; reflexivity|].
  unfold Qmin, GenericMinMax.gmin. destruct (y ?= Qmin_list x rv)%Q.
  - right. left. reflexivity.
  - right. left. reflexivity.
  - destruct IH as [IH|IH]; [left; exact IH | right; right; exact IH].
Qed.

Lemma Qmax_list_in (x : Q) (rv : list Q) : In (Qmax_list x rv) (x :: rv).
Proof.
  induction rv as [|y rv IH]; simpl; [left; reflexivity|].
  unfold Qmax, GenericMinMax.gmax. destruct (y ?= Qmax_list x rv)%Q.
  - right. left. reflexivity.
  - destruct IH as [IH|IH]; [left; exact IH | right; right; exact IH].
  - right. left. reflexivity.
Qed.

(** The width of a prior: never negative, and positive exactly when two
    of the draws differ. *)
Lemma width_of_draws (rv : list Q) (w c : Q) :
  width_center rv = Return (w, c) ->
  (0 <= w)%Q /\
  ((0 < w)%Q <-> exists x y : Q, In x rv /\ In y rv /\ (x < y)%Q).
Proof.
  destruct rv as [|x0 rest]; simpl; [discriminate|].
  intros [= <- _].
  destruct (Qmin_max_list x0 rest) as [Hlo Hhi].
  split; [lra|]. split.
  - intros Hpos.
    exists (Qmin_list x0 rest), (Qmax_list x0 rest).
    split; [apply Qmin_list_in|]. split; [apply Qmax_list_in | lra].
  - intros (x & y & Hx & Hy & Hxy).
    assert (Hx' : (Qmin_list x0 rest <= x)%Q).
    { destruct Hx as [<-|Hx]; [exact Hlo | apply Qmin_list_le, Hx]. }
    assert (Hy' : (y <= Qmax_list x0 rest)%Q).
    { destruct Hy as [<-|Hy]; [exact Hhi | apply Qmax_list_ge, Hy]. }
    lra.
Qed.

(** X12.  The width estimated from the (finite) draws of a prior,
    [max - min], is never negative, and it is positive exactly when two of
    the draws differ: it is zero only for a prior whose draws all
    coincide. *)
Theorem width_center_width (rv : list Q) (w c : Q) :
  width_center rv = Return (w, c) ->
  (0 <= w)%Q /\
  ((0 < w)%Q <-> exists x y : Q, In x rv /\ In y rv /\ (x < y)%Q).
Proof. apply width_of_draws. Qed.

Lemma width_center_width_witness :
  (0 <= 4 - 1)%Q /\
  ((0 < 4 - 1)%Q <-> exists x y : Q, In x [1; 4; 2]%Q /\ In y [1; 4; 2]%Q /\ (x < y)%Q).
Proof.
  exact (width_center_width [1; 4; 2]%Q (4 - 1)%Q ((4 + 1) / 2)%Q eq_refl).
Defined.

Lemma widths_centers_inv (rvs : list (list Q)) :
  forall ws cs : list Q,
    widths_centers rvs = Return (ws, cs) ->
    length ws = length rvs /\ length cs = length rvs /\
    forall (i : nat) (rv : list Q),
      rvs !! i = Some rv ->
      exists w c : Q, ws !! i = Some w /\ cs !! i = Some c /\
                      width_center rv = Return (w, c).
Proof.
  induction rvs as [|rv rest IH]; intros ws cs; simpl.
  - intros [= <- <-]. repeat split. intros i rv Hi. discriminate.
  - destruct (width_center rv) as [[w c]|e] eqn:Ewc; [|discriminate]. simpl.
    destruct (widths_centers rest) as [[ws' cs']|e]; [|discriminate]. simpl.
    intros [= <- <-]. destruct (IH ws' cs' eq_refl) as (Hlw & Hlc & Hlook).
    split; [simpl; congruence|]. split; [simpl; congruence|].
    intros [|i] rv' Hi; simpl in Hi.
    + injection Hi as <-. exists w, c. repeat split. exact Ewc.
    + apply Hlook. exact Hi.
Qed.

(** X13.  The model that [DNest4NestedSampling.__init__] builds has one
    dimension per sampled parameter and as many widths as centres; the
    width of a dimension is never negative, and it is positive exactly
    when two of the draws of its parameter differ. *)
Theorem make_model_dimensions (ll : list Q -> spec_float) (rvs : list (list Q))
    (m : _DNest4Model) :
  make_model ll rvs = Return m ->
  _n_dim m = length rvs /\
  length (_widths m) = length rvs /\ length (_centers m) = length rvs /\
  forall (i : nat) (rv : list Q),
    rvs !! i = Some rv ->
    exists w c : Q,
      _widths m !! i = Some w /\ _centers m !! i = Some c /\ (0 <= w)%Q /\
      ((0 < w)%Q <-> exists x y : Q, In x rv /\ In y rv /\ (x < y)%Q).
Proof.
  unfold make_model.
  destruct (widths_centers rvs) as [[ws cs]|e] eqn:Ewc; [|discriminate]. simpl.
  intros [= <-]. destruct (widths_centers_inv rvs ws cs Ewc) as (Hlw & Hlc & Hlook).
  simpl. split; [exact Hlw|]. split; [exact Hlw|]. split; [exact Hlc|].
  intros i rv Hi. destruct (Hlook i rv Hi) as (w & c & Hw & Hc & Hwc).
  exists w, c. split; [exact Hw|]. split; [exact Hc|].
  apply (width_of_draws rv w c Hwc).
Qed.

Lemma make_model_dimensions_witness :
  exists m : _DNest4Model,
    make_model (fun _ => S754_zero false) [[1; 4; 2]; [0; -2]]%Q = Return m /\
    _n_dim m = 2%nat /\
    length (_widths m) = 2%nat /\ length (_centers m) = 2%nat /\
    forall (i : nat) (rv : list Q),
      [[1; 4; 2]; [0; -2]]%Q !! i = Some rv ->
      exists w c : Q,
        _widths m !! i = Some w /\ _centers m !! i = Some c /\ (0 <= w)%Q /\
        ((0 < w)%Q <-> exists x y : Q, In x rv /\ In y rv /\ (x < y)%Q).
Proof.
  eexists. split; [reflexivity|].
  apply (make_model_dimensions (fun _ => S754_zero false) [[1; 4; 2]; [0; -2]]%Q).
  reflexivity.
Defined.

(** *** Moves that stay in bounds *)

Lemma in_bounds_insert (self : _DNest4Model) (xs : list Q) (idx : nat) (x' w c : Q) :
  in_bounds self xs ->
  _widths self !! idx = Some w -> _centers self !! idx = Some c ->
  (c - w / 2 <= x' /\ x' <= c + w / 2)%Q ->
  in_bounds self (<[idx := x']> xs).
Proof.
  intros Hin Hw Hc Hx' i x wi ci Hi Hwi Hci.
  destruct (decide (i = idx)) as [->|Hne].
  - apply list_lookup_insert_Some in Hi as [(_ & <- & _)|[? _]]; [|contradiction].
    assert (wi = w) by congruence. assert (ci = c) by congruence. subst wi ci. exact Hx'.
  - rewrite list_lookup_insert_ne in Hi by congruence. eapply Hin; eassumption.
Qed.

Lemma wrapped_in_bounds (y w c : Q) :
  (0 < w)%Q ->
  (c - w / 2 <= wrap y (c - 0.5 * w) (c + 0.5 * w) /\
   wrap y (c - 0.5 * w) (c + 0.5 * w) <= c + w / 2)%Q.
Proof.
  intros Hw.
  destruct (wrap_bounds y (c - 0.5 * w) (c + 0.5 * w))%Q as [Hlo Hhi]; [lra|].
  assert (E1 : (c - w / 2 == c - 0.5 * w)%Q) by field.
  assert (E2 : (c + w / 2 == c + 0.5 * w)%Q) by field.
  rewrite E1, E2. split; [exact Hlo | apply Qlt_le_weak; exact Hhi].
Qed.

(** One move on a well-formed model, from an array of the right length. *)
Lemma perturb_step (ll : list Q -> spec_float) (widths centers : list Q)
    (coords : loc) (d : draws) (h : heap) (xs : list Q) :
  length centers = length widths ->
  Forall (fun w => 0 < w)%Q widths ->
  h !! coords = Some xs ->
  length xs = length widths ->
  (draw_randint d < length widths)%nat ->
  in_bounds (__init__ ll widths centers) xs ->
  exists xs' : list Q,
    perturb (__init__ ll widths centers) coords d h = (<[coords := xs']> h, Return 0%Q) /\
    length xs' = length xs /\
    in_bounds (__init__ ll widths centers) xs'.
Proof.
  intros Hlc Hpos Hh Hlx Hd Hin.
  destruct (lookup_lt_is_Some_2 widths (draw_randint d) Hd) as [w Hw].
  destruct (lookup_lt_is_Some_2 centers (draw_randint d) ltac:(lia)) as [c Hc].
  destruct (lookup_lt_is_Some_2 xs (draw_randint d) ltac:(lia)) as [x Hx].
  assert (Hwpos : (0 < w)%Q).
  { rewrite Forall_forall in Hpos. apply Hpos. eapply list_elem_of_lookup_2. exact Hw. }
  eexists. split; [|split].
  - apply (perturb_run (__init__ ll widths centers) coords d h xs x w c);
      [simpl; lia | assumption..].
  - apply length_insert.
  - apply (in_bounds_insert _ xs _ _ w c Hin Hw Hc). apply wrapped_in_bounds, Hwpos.
Qed.

(** X14.  On a model with as many centres as widths, all widths positive,
    a move on an array with one coordinate per dimension, all of them
    inside their intervals, returns 0.0 and leaves an array of the same
    length with all coordinates inside their intervals. *)
Theorem perturb_keeps_in_bounds (ll : list Q -> spec_float) (widths centers : list Q)
    (coords : loc) (d : draws) (h : heap) (xs : list Q) :
  length centers = length widths ->
  Forall (fun w => 0 < w)%Q widths ->
  h !! coords = Some xs ->
  length xs = length widths ->
  (draw_randint d < length widths)%nat ->
  in_bounds (__init__ ll widths centers) xs ->
  exists xs' : list Q,
    perturb (__init__ ll widths centers) coords d h = (<[coords := xs']> h, Return 0%Q) /\
    length xs' = length xs /\
    in_bounds (__init__ ll widths centers) xs'.
Proof. apply perturb_step. Qed.

Lemma two_in_bounds :
  in_bounds (__init__ (fun _ => S754_zero false) [2; 4]%Q [0; 1]%Q) [0.5; 2.5]%Q.
Proof.
  intros [|[|i]] x w c Hx Hw Hc; simpl in Hx, Hw, Hc; try discriminate;
    injection Hx as <-; injection Hw as <-; injection Hc as <-;
    split; apply Qle_bool_iff; reflexivity.
Qed.

Lemma perturb_keeps_in_bounds_witness :
  exists xs' : list Q,
    perturb (__init__ (fun _ => S754_zero false) [2; 4]%Q [0; 1]%Q) 0%nat
        {| draw_randint := 1; draw_uniform := 0.75%Q |} {[ 0%nat := [0.5; 2.5]%Q ]}
      = (<[0%nat := xs']> {[ 0%nat := [0.5; 2.5]%Q ]}, Return 0%Q) /\
    length xs' = 2%nat /\
    in_bounds (__init__ (fun _ => S754_zero false) [2; 4]%Q [0; 1]%Q) xs'.
Proof.
  apply (perturb_keeps_in_bounds (fun _ => S754_zero false) [2; 4]%Q [0; 1]%Q 0%nat
           {| draw_randint := 1; draw_uniform := 0.75%Q |} {[ 0%nat := [0.5; 2.5]%Q ]}
           [0.5; 2.5]%Q).
  - reflexivity.
  - repeat constructor.
  - reflexivity.
  - reflexivity.
  - simpl. lia.
  - exact two_in_bounds.
Defined.

(** X15.  The same holds for any number of moves in a row, whatever the
    draws: the coordinates never leave their intervals. *)
Theorem perturb_each_in_bounds (ll : list Q -> spec_float) (widths centers : list Q)
    (coords : loc) (ds : list draws) (h : heap) (xs : list Q) :
  length centers = length widths ->
  Forall (fun w => 0 < w)%Q widths ->
  Forall (fun d => draw_randint d < length widths)%nat ds ->
  h !! coords = Some xs ->
  length xs = length widths ->
  in_bounds (__init__ ll widths centers) xs ->
  exists xs' : list Q,
    perturb_each (__init__ ll widths centers) coords ds h
      = (<[coords := xs']> h, Return tt) /\
    length xs' = length xs /\
    in_bounds (__init__ ll widths centers) xs'.
Proof.
  intros Hlc Hpos Hds. revert h xs.
  induction Hds as [|d ds Hd _ IH]; intros h xs Hh Hlx Hin.
  - exists xs. split; [|split; [reflexivity | exact Hin]].
    simpl. unfold ret. rewrite insert_id by exact Hh. reflexivity.
  - destruct (perturb_step ll widths centers coords d h xs Hlc Hpos Hh Hlx Hd Hin)
      as (xs1 & Hrun & Hl1 & Hin1).
    destruct (IH (<[coords := xs1]> h) xs1) as (xs2 & Hrest & Hl2 & Hin2).
    { apply lookup_insert_eq. }
    { congruence. }
    { exact Hin1. }
    exists xs2. split; [|split; [congruence | exact Hin2]].
    simpl. unfold Store.bind. rewrite Hrun, Hrest, insert_insert_eq. reflexivity.
Qed.

Lemma perturb_each_in_bounds_witness :
  exists xs' : list Q,
    perturb_each (__init__ (fun _ => S754_zero false) [2; 4]%Q [0; 1]%Q) 0%nat
        [ {| draw_randint := 1; draw_uniform := 0.75%Q |};
          {| draw_randint := 0; draw_uniform := 0.25%Q |} ]
        {[ 0%nat := [0.5; 2.5]%Q ]}
      = (<[0%nat := xs']> {[ 0%nat := [0.5; 2.5]%Q ]}, Return tt) /\
    length xs' = 2%nat /\
    in_bounds (__init__ (fun _ => S754_zero false) [2; 4]%Q [0; 1]%Q) xs'.
Proof.
  apply (perturb_each_in_bounds (fun _ => S754_zero false) [2; 4]%Q [0; 1]%Q 0%nat
           [ {| draw_randint := 1; draw_uniform := 0.75%Q |};
             {| draw_randint := 0; draw_uniform := 0.25%Q |} ]
           {[ 0%nat := [0.5; 2.5]%Q ]} [0.5; 2.5]%Q).
  - reflexivity.
  - repeat constructor.
  - repeat constructor.
  - reflexivity.
  - reflexivity.
  - exact two_in_bounds.
Defined.

(** X16.  When the shifted coordinate [x + width * (u - 0.5)] is already
    inside [center - width/2, center + width/2), the move stores that
    value: nothing is wrapped. *)
Theorem perturb_plain_shift (ll : list Q -> spec_float) (widths centers : list Q)
    (coords : loc) (d : draws) (h : heap) (xs : list Q) (x w c : Q) :
  h !! coords = Some xs ->
  xs !! draw_randint d = Some x ->
  widths !! draw_randint d = Some w ->
  centers !! draw_randint d = Some c ->
  (c - w / 2 <= x + w * (draw_uniform d - 0.5))%Q ->
  (x + w * (draw_uniform d - 0.5) < c + w / 2)%Q ->
  exists x' : Q,
    perturb (__init__ ll widths centers) coords d h =
      (<[coords := <[draw_randint d := x']> xs]> h, Return 0%Q) /\
    (x' == x + w * (draw_uniform d - 0.5))%Q.
Proof.
  intros Hh Hx Hw Hc Hlo Hhi.
  eexists. split.
  - apply (perturb_run (__init__ ll widths centers) coords d h xs x w c); try assumption.
    simpl. apply lookup_lt_Some in Hw. lia.
  - apply wrap_inside.
    + assert (E : (c - 0.5 * w == c - w / 2)%Q) by field. rewrite E. exact Hlo.
    + assert (E : (c + 0.5 * w == c + w / 2)%Q) by field. rewrite E. exact Hhi.
Qed.

Lemma perturb_plain_shift_witness :
  exists x' : Q,
    perturb (__init__ (fun _ => S754_zero false) [2; 4]%Q [0; 1]%Q) 0%nat
        {| draw_randint := 1; draw_uniform := 0.25%Q |} {[ 0%nat := [0.5; 2.5]%Q ]}
      = (<[0%nat := <[1%nat := x']> [0.5; 2.5]%Q]> {[ 0%nat := [0.5; 2.5]%Q ]}, Return 0%Q) /\
    (x' == 2.5 + 4 * (0.25 - 0.5))%Q.
Proof.
  apply (perturb_plain_shift (fun _ => S754_zero false) [2; 4]%Q [0; 1]%Q 0%nat
           {| draw_randint := 1; draw_uniform := 0.25%Q |} {[ 0%nat := [0.5; 2.5]%Q ]}
           [0.5; 2.5]%Q 2.5%Q 4%Q 1%Q);
    reflexivity || (apply Qle_bool_iff; reflexivity).
Defined.

(** X17.  On a model with as many centres as widths, a move that raises
    has written nothing: the store is the one it was given. *)
Theorem perturb_failure_writes_nothing (ll : list Q -> spec_float)
    (widths centers : list Q) (coords : loc) (d : draws) (h h' : heap) (e : exn) :
  length centers = length widths ->
  perturb (__init__ ll widths centers) coords d h = (h', Raise e) ->
  h' = h.
Proof.
  intros Hlc Hrun.
  assert (Hfail : forall e0 : exn,
             perturb (__init__ ll widths centers) coords d h = (h, Raise e0) -> h' = h).
  { intros e0 He0. rewrite He0 in Hrun. congruence. }
  destruct (decide (length widths = 0)%nat) as [Hz|Hn].
  { apply (Hfail ValueError). unfold perturb, Store.bind, lift, randint. simpl _n_dim.
    rewrite decide_True by exact Hz. reflexivity. }
  destruct (h !! coords) as [xs|] eqn:Hh.
  2:{ apply (Hfail TypeError). unfold perturb, Store.bind, lift, randint, getitem.
      simpl _n_dim. rewrite decide_False by exact Hn. rewrite Hh. reflexivity. }
  destruct (xs !! draw_randint d) as [x|] eqn:Hx.
  2:{ apply (Hfail IndexError). unfold perturb, Store.bind, lift, randint, getitem, index.
      simpl _n_dim. rewrite decide_False by exact Hn. rewrite Hh, Hx. reflexivity. }
  destruct (widths !! draw_randint d) as [w|] eqn:Hw.
  2:{ apply (Hfail IndexError). unfold perturb, Store.bind, lift, randint, getitem, index.
      simpl _n_dim. simpl _widths. rewrite decide_False by exact Hn.
      rewrite Hh, Hx, Hw. reflexivity. }
  destruct (lookup_lt_is_Some_2 centers (draw_randint d)) as [c Hc].
  { apply lookup_lt_Some in Hw. lia. }
  rewrite (perturb_run (__init__ ll widths centers) coords d h xs x w c) in Hrun;
    [discriminate Hrun | exact Hn | exact Hh | exact Hx | exact Hw | exact Hc].
Qed.

Lemma perturb_failure_writes_nothing_witness :
  (perturb (__init__ (fun _ => S754_zero false) [2; 4]%Q [0; 1]%Q) 0%nat
     {| draw_randint := 1; draw_uniform := 0.25%Q |} {[ 0%nat := [0.5]%Q ]}).1
    = {[ 0%nat := [0.5]%Q ]}.
Proof.
  apply (perturb_failure_writes_nothing (fun _ => S754_zero false) [2; 4]%Q [0; 1]%Q
           0%nat {| draw_randint := 1; draw_uniform := 0.25%Q |}
           {[ 0%nat := [0.5]%Q ]} _ IndexError).
  - reflexivity.
  - reflexivity.
Defined.

End PriorFacts.


(** ** The information criteria: proofs *)

Module CriteriaFacts.
Import DNest4 Criteria.

(** *** The largest log-likelihood *)

Lemma fold_Rmax_upper (x : R) (rest : list R) :
  forall l : R, In l (x :: rest) -> (l <= fold_right Rmax x rest)%R.
Proof.
  induction rest as [|y rest IH]; intros l Hin; simpl in *.
  - destruct Hin as [<-|[]]. apply Rle_refl.
  - destruct Hin as [<-|[<-|Hin]].
    + eapply Rle_trans; [apply IH; left; reflexivity | apply Rmax_r].
    + apply Rmax_l.
    + eapply Rle_trans; [apply IH; right; exact Hin | apply Rmax_r].
Qed.

Lemma fold_Rmax_in (x : R) (rest : list R) : In (fold_right Rmax x rest) (x :: rest).
Proof.
  induction rest as [|y rest IH]; simpl; [left; reflexivity|].
  destruct (Rle_dec y (fold_right Rmax x rest)) as [Hle|Hgt].
  - rewrite (Rmax_right _ _ Hle).
    destruct IH as [IH|IH]; [left; exact IH | right; right; exact IH].
  - rewrite Rmax_left by Lra.lra. right. left. reflexivity.
Qed.

(** X18.  After a run that completes with a non-empty last live sample,
    [akaike_ic()] is [2*k - 2*L], where [k] is the number of sampled
    parameters and [L] is the largest log-likelihood of the last live
    sample: one of its values, and no other value exceeds it. *)
Theorem akaike_ic_after_run (self : Sampler) (o : SamplerOutput) (backend : Backend) :
  sample_info_last backend <> [] ->
  exists L : R,
    akaike_ic (run_sampler self (Completes o) backend).1
      = Return (Num (2 * INR (length (sampled_parameters (core self))) - 2 * L)) /\
    In L (sample_info_last backend) /\
    forall l : R, In l (sample_info_last backend) -> (l <= L)%R.
Proof.
  intros Hne. unfold akaike_ic, run_sampler. simpl.
  destruct (sample_info_last backend) as [|x rest]; [contradiction|]. simpl.
  exists (fold_right Rmax x rest). split; [|split].
  - reflexivity.
  - apply fold_Rmax_in.
  - apply fold_Rmax_upper.
Qed.

Lemma akaike_ic_after_run_witness :
  exists L : R,
    akaike_ic (run_sampler (new [ {| name := "k" |} ] None (fun _ => Num 0))
                 (Completes {| log_Z := 1; H := 2; posterior_samples := [[0%R]] |})
                 {| samples_last := [[0%R]; [1%R]]; weights_last := [1%R; 1%R];
                    sample_info_last := [-3; -1]%R |}).1
      = Return (Num (2 * INR 1 - 2 * L)) /\
    In L [-3; -1]%R /\
    forall l : R, In l [-3; -1]%R -> (l <= L)%R.
Proof.
  apply (akaike_ic_after_run (new [ {| name := "k" |} ] None (fun _ => Num 0))
           {| log_Z := 1; H := 2; posterior_samples := [[0%R]] |}
           {| samples_last := [[0%R]; [1%R]]; weights_last := [1%R; 1%R];
              sample_info_last := [-3; -1]%R |}).
  discriminate.
Defined.

(** X20.  Before a run has finished (on a new object, and after a run
    that raised), the three criteria raise [AttributeError]: [akaike_ic]
    and [bayesian_ic] for [_last_live_sample_info], [deviance_ic] for
    [_last_live_sample]. *)
Theorem criteria_before_run (params : list SampledParameter) (pop : option Z)
    (ll : list R -> npfloat) (e : exn) (backend : Backend) (n_data : nat) :
  let fresh := new params pop ll in
  let failed := (run_sampler fresh (Fails e) backend).1 in
  (akaike_ic fresh = Raise (AttributeError "_last_live_sample_info") /\
   bayesian_ic fresh n_data = Raise (AttributeError "_last_live_sample_info") /\
   deviance_ic fresh = Raises (Exn (AttributeError "_last_live_sample"))) /\
  (akaike_ic failed = Raise (AttributeError "_last_live_sample_info") /\
   bayesian_ic failed n_data = Raise (AttributeError "_last_live_sample_info") /\
   deviance_ic failed = Raises (Exn (AttributeError "_last_live_sample"))).
Proof. repeat split. Qed.

(** X21.  With no data point at all, [bayesian_ic(0)] does not raise: for
    a non-empty last live sample whose log-likelihoods are all finite and
    at least one sampled parameter, it returns minus infinity. *)
Theorem bayesian_ic_without_data (self : Sampler) (info : list R) :
  _last_live_sample_info self = Some info ->
  info <> [] ->
  sampled_parameters (core self) <> [] ->
  bayesian_ic self 0 = Return NegInf.
Proof.
  intros Hinfo Hne Hk. unfold bayesian_ic. rewrite Hinfo.
  destruct info as [|x rest]; [contradiction|].
  destruct (sampled_parameters (core self)) as [|p ps]; [contradiction|].
  assert (Hpos : (0 < INR (length (p :: ps)))%R) by (apply lt_0_INR; simpl; lia).
  generalize dependent (INR (length (p :: ps))). intros k Hpos.
  simpl. unfold inf_times. destruct (Rlt_dec 0 k); [reflexivity | contradiction].
Qed.

Lemma bayesian_ic_without_data_witness :
  bayesian_ic (run_sampler (new [ {| name := "k" |} ] None (fun _ => Num 0))
                 (Completes {| log_Z := 1; H := 2; posterior_samples := [[0%R]] |})
                 {| samples_last := [[0%R]; [1%R]]; weights_last := [1%R; 1%R];
                    sample_info_last := [-3; -1]%R |}).1 0
    = Return NegInf.
Proof.
  apply (bayesian_ic_without_data _ [-3; -1]%R).
  - reflexivity.
  - discriminate.
  - discriminate.
Defined.

End CriteriaFacts.


(** ** The criterion tables of the selector: proofs *)

Module SelectorCriteriaFacts.
Import DNest4 HypSel Criteria SelectorCriteria.

(** *** Sorting *)

Lemma np_before_total (a b : npfloat) : np_before a b = false -> np_before b a = true.
Proof.
  destruct a as [| | |x], b as [| | |y]; simpl; try discriminate; try reflexivity.
  destruct (Rle_dec x y) as [|Hxy]; [discriminate|]. intros _.
  destruct (Rle_dec y x) as [|Hyx]; [reflexivity|]. exfalso. Lra.lra.
Qed.

Lemma np_before_trans (a b c : npfloat) :
  np_before a b = true -> np_before b c = true -> np_before a c = true.
Proof.
  destruct a as [| | |x], b as [| | |y], c as [| | |z]; simpl;
    try discriminate; try reflexivity.
  destruct (Rle_dec x y) as [Hxy|]; [|discriminate].
  destruct (Rle_dec y z) as [Hyz|]; [|discriminate]. intros _ _.
  destruct (Rle_dec x z) as [|Hxz]; [reflexivity|]. exfalso. Lra.lra.
Qed.

Lemma insert_ic_perm (r : ic_row) (rows : list ic_row) : insert_ic r rows ≡ₚ r :: rows.
Proof.
  induction rows as [|r' rest IH]; simpl; [reflexivity|].
  destruct (np_before (ic_value r) (ic_value r')); [reflexivity|].
  rewrite IH. apply Permutation_swap.
Qed.

Lemma sort_ascending_perm (rows : list ic_row) : sort_ascending rows ≡ₚ rows.
Proof.
  unfold sort_ascending. induction rows as [|r rest IH]; simpl; [reflexivity|].
  rewrite insert_ic_perm, IH. reflexivity.
Qed.

Lemma insert_ic_sorted (r : ic_row) (rows : list ic_row) :
  StronglySorted (fun a b => np_before (ic_value a) (ic_value b) = true) rows ->
  StronglySorted (fun a b => np_before (ic_value a) (ic_value b) = true) (insert_ic r rows).
Proof.
  induction 1 as [|r' rest Hsorted IH Hall]; simpl.
  - repeat constructor.
  - destruct (np_before (ic_value r) (ic_value r')) eqn:E.
    + constructor; [constructor; assumption|].
      constructor; [exact E|].
      eapply Forall_impl; [exact Hall|]. intros c Hc. eapply np_before_trans; eassumption.
    + constructor; [exact IH|].
      rewrite insert_ic_perm. constructor; [apply np_before_total; exact E | exact Hall].
Qed.

Lemma sort_ascending_sorted (rows : list ic_row) :
  StronglySorted (fun a b => np_before (ic_value a) (ic_value b) = true)
    (sort_ascending rows).
Proof.
  unfold sort_ascending. induction rows as [|r rest IH]; [constructor|].
  simpl. apply insert_ic_sorted, IH.
Qed.

(** *** The frame *)

Lemma build_ic_frame_rows (criterion : DNest4NestedSampling -> result npfloat) :
  forall (nss : list DNest4NestedSampling) (s : nat),
    (forall (i : nat) (ns : DNest4NestedSampling),
        nss !! i = Some ns -> exists v, criterion ns = Return v) ->
    exists rows : list ic_row,
      build_ic_frame criterion s nss = Return rows /\
      length rows = length nss /\
      forall (i : nat) (ns : DNest4NestedSampling) (v : npfloat),
        nss !! i = Some ns -> criterion ns = Return v ->
        rows !! i = Some {| ic_model := model_name (s + i); ic_value := v |}.
Proof.
  induction nss as [|ns rest IH]; intros s Hall.
  - exists []. repeat split. intros i ns v Hi. discriminate.
  - destruct (Hall 0%nat ns eq_refl) as [v Hv].
    destruct (IH (S s)) as (rows & Hbuild & Hlen & Hlook).
    { intros i ns' Hi. apply (Hall (S i)). exact Hi. }
    eexists. simpl build_ic_frame. rewrite Hv. simpl. rewrite Hbuild. simpl.
    split; [reflexivity|]. split; [simpl; congruence|].
    intros [|i] ns' v' Hi Hv'; simpl in Hi.
    + injection Hi as <-. rewrite Nat.add_0_r. simpl. congruence.
    + simpl. replace (s + S i)%nat with (S s + i)%nat by lia.
      apply (Hlook i ns' v' Hi Hv').
Qed.

(** The table of a criterion that every sampler can compute. *)
Lemma ic_table_sorted (criterion : DNest4NestedSampling -> result npfloat)
    (column : string) (self : HypSelector) (nss : list DNest4NestedSampling) :
  nested_samplers self = Some nss ->
  nss <> [] ->
  (forall (i : nat) (ns : DNest4NestedSampling),
      nss !! i = Some ns -> exists v, criterion ns = Return v) ->
  exists table : list ic_row,
    ic_table criterion column self = Return table /\
    length table = length nss /\
    (forall (i : nat) (ns : DNest4NestedSampling) (v : npfloat),
        nss !! i = Some ns -> criterion ns = Return v ->
        {| ic_model := model_name i; ic_value := v |} ∈ table) /\
    (forall (i j : nat) (a b : ic_row),
        (i < j)%nat -> table !! i = Some a -> table !! j = Some b ->
        (forall x y : R, ic_value a = Num x -> ic_value b = Num y -> (x <= y)%R) /\
        (ic_value a = NaN -> ic_value b = NaN)).
Proof.
  intros Hns Hne Hall.
  destruct (build_ic_frame_rows criterion nss 0%nat Hall) as (rows & Hbuild & Hlen & Hrows).
  exists (sort_ascending rows). split; [|split; [|split]].
  - unfold ic_table. rewrite Hns, Hbuild. simpl.
    destruct rows as [|r rows]; [|reflexivity].
    exfalso. apply Hne. destruct nss; [reflexivity | simpl in Hlen; lia].
  - rewrite sort_ascending_perm. exact Hlen.
  - intros i ns v Hi Hv. rewrite sort_ascending_perm.
    eapply list_elem_of_lookup_2. apply (Hrows i ns v Hi Hv).
  - intros i j a b Hij Ha Hb.
    pose proof (SelectionFacts.sorted_lookup _ _ (sort_ascending_sorted rows) i j a b Hij Ha Hb)
      as Hab.
    cbv beta in Hab. split.
    + intros x y Hx Hy. rewrite Hx, Hy in Hab. simpl in Hab.
      destruct (Rle_dec x y); [assumption | discriminate].
    + intros Hx. rewrite Hx in Hab. destruct (ic_value b); [reflexivity | discriminate..].
Qed.



(** *** The number of data points *)

Lemma n_data_fold_insert (m : gmap string (list R)) (k : string) (d : list R) :
  m !! k = None ->
  map_fold (fun (_ : string) (data : list R) (n : nat) => (n + length data)%nat) 0%nat
    (<[k := d]> m)
  = (map_fold (fun (_ : string) (data : list R) (n : nat) => (n + length data)%nat) 0%nat m
     + length d)%nat.
Proof.
  intros Hk. apply (map_fold_insert_L (fun _ data n => (n + length data)%nat)); [|exact Hk].
  intros. lia.
Qed.

(** X24.  [_n_data()] counts the data points of the first model's
    observables only: it is 0 for no observable, and an observable with
    [d] data points under a new name adds [d], whatever the other models'
    data. *)
Theorem n_data_counts (sel : HypSelector) (m : gmap string (list R)) (k : string)
    (d : list R) (others : list (gmap string (list R))) :
  m !! k = None ->
  _n_data {| selector := sel; _nested_sample_its := Some (∅ :: others) |} = Return 0%nat /\
  exists n : nat,
    _n_data {| selector := sel; _nested_sample_its := Some (m :: others) |} = Return n /\
    _n_data {| selector := sel; _nested_sample_its := Some (<[k := d]> m :: others) |}
      = Return (n + length d)%nat.
Proof.
  intros Hk. split; [reflexivity|].
  eexists. split; [reflexivity|].
  unfold _n_data. simpl. f_equal. apply n_data_fold_insert, Hk.
Qed.

Lemma n_data_counts_witness :
  _n_data {| selector := two_ran; _nested_sample_its := Some [∅] |} = Return 0%nat /\
  exists n : nat,
    _n_data {| selector := two_ran;
               _nested_sample_its := Some [ {[ "a" := [1%R] ]} ] |} = Return n /\
    _n_data {| selector := two_ran;
               _nested_sample_its := Some [ <[ "b" := [2%R; 3%R] ]> {[ "a" := [1%R] ]} ] |}
      = Return (n + length [2%R; 3%R])%nat.
Proof.
  apply (n_data_counts two_ran {[ "a" := [1%R] ]} "b" [2%R; 3%R] []).
  reflexivity.
Defined.



End SelectorCriteriaFacts.


(** ** The model files: proofs *)

Module FilesFacts.
Import HypSel Files.

Lemma string_app_assoc (a b c : string) : (a +:+ b) +:+ c = a +:+ (b +:+ c).
Proof.
  induction a as [|ch a IH]; [reflexivity|].
  change (String ch ((a +:+ b) +:+ c) = String ch (a +:+ (b +:+ c))).
  rewrite IH. reflexivity.
Qed.

Lemma foldl_append_line (line : string) (l : list string) :
  NoDup l ->
  forall fs : files,
    (forall mf : string, mf ∈ l ->
       foldl (append_line line) fs l !! mf = Some (default "" (fs !! mf) +:+ line)) /\
    (forall f : string, f ∉ l -> foldl (append_line line) fs l !! f = fs !! f).
Proof.
  induction 1 as [|x l Hx Hnd IH]; intros fs.
  - split; [intros mf Hin; inversion Hin | intros; reflexivity].
  - simpl. destruct (IH (append_line line fs x)) as [IHin IHout]. split.
    + intros mf Hin. apply elem_of_cons in Hin as [->|Hin].
      * rewrite (IHout x Hx). unfold append_line. apply lookup_insert_eq.
      * rewrite (IHin mf Hin). unfold append_line.
        rewrite lookup_insert_ne; [reflexivity|]. intros ->. contradiction.
    + intros f Hf. apply not_elem_of_cons in Hf as [Hne Hf].
      rewrite (IHout f Hf). unfold append_line. apply lookup_insert_ne. congruence.
Qed.

(** X26.  [append_to_models(line)] puts [line] at the end of every model
    file and touches no other file (the model files being distinct
    paths). *)
Theorem append_to_models_appends (self : HypSelector) (line : string) (fs : files) :
  NoDup (_model_files self) ->
  (forall mf : string, mf ∈ _model_files self ->
     append_to_models self line fs !! mf = Some (default "" (fs !! mf) +:+ line)) /\
  (forall f : string, f ∉ _model_files self ->
     append_to_models self line fs !! f = fs !! f).
Proof. intros Hnd. apply foldl_append_line, Hnd. Qed.

Lemma append_to_models_appends_witness :
  (forall mf : string, mf ∈ _model_files two_ran ->
     append_to_models two_ran "Observable('o', A())" {[ "hb_models/model_0.py" := "x" ]} !! mf
     = Some (default "" (({[ "hb_models/model_0.py" := "x" ]} : files) !! mf)
             +:+ "Observable('o', A())")) /\
  (forall f : string, f ∉ _model_files two_ran ->
     append_to_models two_ran "Observable('o', A())" {[ "hb_models/model_0.py" := "x" ]} !! f
     = ({[ "hb_models/model_0.py" := "x" ]} : files) !! f).
Proof.
  apply (append_to_models_appends two_ran).
  simpl. apply NoDup_cons. split; [|apply NoDup_singleton].
  intros Hin. apply list_elem_of_singleton in Hin. discriminate.
Defined.

(** X27.  Appending one line and then another is appending the two lines
    joined (the model files being distinct paths). *)
Theorem append_to_models_twice (self : HypSelector) (l1 l2 : string) (fs : files) :
  NoDup (_model_files self) ->
  append_to_models self l2 (append_to_models self l1 fs)
    = append_to_models self (l1 +:+ l2) fs.
Proof.
  intros Hnd. apply map_eq. intros f. unfold append_to_models.
  destruct (foldl_append_line l2 _ Hnd (foldl (append_line l1) fs (_model_files self)))
    as [Hin2 Hout2].
  destruct (foldl_append_line l1 _ Hnd fs) as [Hin1 Hout1].
  destruct (foldl_append_line (l1 +:+ l2) _ Hnd fs) as [Hin12 Hout12].
  destruct (decide (f ∈ _model_files self)) as [Hin|Hout].
  - rewrite (Hin2 f Hin), (Hin1 f Hin), (Hin12 f Hin). simpl.
    rewrite string_app_assoc. reflexivity.
  - rewrite (Hout2 f Hout), (Hout1 f Hout), (Hout12 f Hout). reflexivity.
Qed.

Lemma append_to_models_twice_witness :
  append_to_models two_ran "b" (append_to_models two_ran "a" ∅)
    = append_to_models two_ran ("a" +:+ "b") ∅.
Proof.
  apply (append_to_models_twice two_ran "a" "b" ∅).
  simpl. apply NoDup_cons. split; [|apply NoDup_singleton].
  intros Hin. apply list_elem_of_singleton in Hin. discriminate.
Defined.

End FilesFacts.
